(** * DeepCodeX: the source-text classifier of [frontend/pages/CodeAnalysis.tsx]

    The development embeds the three pieces of the classifier:
    - the table [LANGUAGE_PATTERNS] (ten regular expressions with their
      language descriptors),
    - the prose scorer [isPlainText],
    - the orchestrator [detectLanguage],
    together with the fragment of the ECMAScript string and RegExp
    semantics they rely on ([trim], [split], [RegExp.prototype.test],
    [String.prototype.match] with a global pattern). *)

From Stdlib Require Import String Ascii NArith ZArith QArith Bool Arith Lia List.
From Stdlib Require PrimFloat.
Import ListNotations.

Set Implicit Arguments.
Local Close Scope Q_scope.

(* ================================================================== *)
(** ** JavaScript strings *)
(* ================================================================== *)

(** A JavaScript string is a sequence of UTF-16 code units. *)
Definition char := N.
Definition jsstring := list char.

(** [u s] reads an ASCII literal of this file as a JavaScript string: one
    code unit per character.  It is only applied to ASCII text. *)
Definition u (s : string) : jsstring := map N_of_ascii (list_ascii_of_string s).

(** Line feed, the separator of [split('\n')]. *)
Definition LF : char := 10%N.
(** The double quote, which a literal of this file cannot hold. *)
Definition DQ : char := 34%N.

Local Open Scope N_scope.

(** ECMAScript LineTerminator: LF, CR, LS, PS. *)
Definition isLineTerminator (c : char) : bool :=
  (c =? 10) || (c =? 13) || (c =? 0x2028) || (c =? 0x2029).

(** ECMAScript WhiteSpace: TAB, VT, FF, ZWNBSP and the category Zs. *)
Definition isWhiteSpace (c : char) : bool :=
  (c =? 9) || (c =? 11) || (c =? 12) || (c =? 32) || (c =? 0xA0) ||
  (c =? 0x1680) || ((0x2000 <=? c) && (c <=? 0x200A)) ||
  (c =? 0x202F) || (c =? 0x205F) || (c =? 0x3000) || (c =? 0xFEFF).

(** What [String.prototype.trim] strips and what [\s] matches. *)
Definition isSpace (c : char) : bool := isWhiteSpace c || isLineTerminator c.

(** [\w]: ASCII letters, digits and the underscore. *)
Definition isWordChar (c : char) : bool :=
  ((97 <=? c) && (c <=? 122)) || ((65 <=? c) && (c <=? 90)) ||
  ((48 <=? c) && (c <=? 57)) || (c =? 95).

Local Close Scope N_scope.

Fixpoint dropWhile (p : char -> bool) (s : jsstring) : jsstring :=
  match s with
  | [] => []
  | c :: s' => if p c then dropWhile p s' else s
  end.

Definition trimStart (s : jsstring) : jsstring := dropWhile isSpace s.
Definition trimEnd (s : jsstring) : jsstring := rev (dropWhile isSpace (rev s)).
(** [String.prototype.trim]. *)
Definition trim (s : jsstring) : jsstring := trimEnd (trimStart s).

(** [s.split('\n')]: the pieces between line feeds; the empty string gives
    one empty piece. *)
Fixpoint split_LF (s : jsstring) : list jsstring :=
  match s with
  | [] => [[]]
  | c :: s' =>
      if N.eqb c LF then [] :: split_LF s'
      else match split_LF s' with
           | l :: ls => (c :: l) :: ls
           | [] => [[c]]
           end
  end.

(** Truthiness of a string: it is not empty. *)
Definition truthy (s : jsstring) : bool :=
  match s with [] => false | _ :: _ => true end.

(* ================================================================== *)
(** ** Regular expressions *)
(* ================================================================== *)

(** The syntax covers what the patterns of the program use.  Every [*] and
    [+] of the program quantifies a one-character atom, and every [?] a
    group or an atom, so [Star] and [Plus] take a character class. *)

Inductive citem : Type :=
| CChar (c : char)            (* a character *)
| CRange (lo hi : char)       (* lo-hi *)
| CSpace                      (* \s *)
| CWord.                      (* \w *)

Inductive cclass : Type :=
| OneOf (items : list citem)  (* [...] , or a lone escape or character *)
| NoneOf (items : list citem) (* [^...] *)
| Dot.                        (* . *)

Inductive regex : Type :=
| Lit (l : jsstring)          (* a run of literal characters *)
| Cls (c : cclass)            (* one character of a class *)
| Seq (r1 r2 : regex)         (* r1 r2 *)
| Alt (r1 r2 : regex)         (* r1|r2 *)
| Opt (r : regex)             (* r? *)
| Star (c : cclass)           (* c*, greedy *)
| Plus (c : cclass)           (* c+, greedy *)
| Bol                         (* ^ *)
| Eol                         (* $ *)
| WordB                       (* \b *)
| NotBehind (c : cclass).     (* (?<!c), a one-character negative lookbehind *)

Record flags : Type := Flags {
  global : bool;      (* g *)
  ignoreCase : bool;  (* i *)
  multiline : bool;   (* m *)
  sticky : bool       (* y *)
}.

Definition no_flags : flags := Flags false false false false.
Definition flag_i : flags := Flags false true false false.
Definition flag_m : flags := Flags false false true false.
Definition flag_g : flags := Flags true false false false.

(** Canonicalize of the specification, without the [u] flag: the upper-case
    form when it is one code unit, except that a code unit above 127 never
    canonicalizes to one below 128.  The patterns matched with [i] hold ASCII
    characters, [\s] and [\w] only, and white space has no case, so a code
    unit above 127 matches an atom of theirs exactly when it does without the
    flag; the model therefore folds the ASCII letters and leaves every other
    code unit alone. *)
Definition canon (fl : flags) (c : char) : char :=
  if ignoreCase fl && (N.leb 97 c && N.leb c 122) then (c - 32)%N else c.

Definition lowerASCII (c : char) : char :=
  if N.leb 65 c && N.leb c 90 then (c + 32)%N else c.
Definition upperASCII (c : char) : char :=
  if N.leb 97 c && N.leb c 122 then (c - 32)%N else c.

Definition in_range (lo hi c : char) : bool := N.leb lo c && N.leb c hi.

(** A class item matches [c] when one of its members canonicalizes like
    [c]. *)
Definition item_matches (fl : flags) (it : citem) (c : char) : bool :=
  match it with
  | CChar a => N.eqb (canon fl a) (canon fl c)
  | CRange lo hi =>
      in_range lo hi c ||
      (ignoreCase fl && (in_range lo hi (upperASCII c) || in_range lo hi (lowerASCII c)))
  | CSpace => isSpace c
  | CWord => isWordChar c
  end.

Definition in_class (fl : flags) (cl : cclass) (c : char) : bool :=
  match cl with
  | OneOf items => existsb (fun it => item_matches fl it c) items
  | NoneOf items => negb (existsb (fun it => item_matches fl it c) items)
  | Dot => negb (isLineTerminator c)
  end.

(** A continuation receives the character before the current position (if
    any) and the rest of the input, and answers with the rest of the input
    after the whole match, or [None] for failure. *)
Definition K : Type := option char -> jsstring -> option jsstring.

Definition orElse (a b : option jsstring) : option jsstring :=
  match a with Some _ => a | None => b end.

Definition kend : K := fun _ rest => Some rest.

Fixpoint lit (fl : flags) (l : jsstring) (k : K) (prev : option char)
    (rest : jsstring) : option jsstring :=
  match l with
  | [] => k prev rest
  | a :: l' =>
      match rest with
      | c :: rest' =>
          if N.eqb (canon fl a) (canon fl c) then lit fl l' k (Some c) rest' else None
      | [] => None
      end
  end.

(** Greedy repetition of a class: one more character first, the
    continuation on backtracking. *)
Fixpoint star (fl : flags) (cl : cclass) (k : K) (prev : option char)
    (rest : jsstring) : option jsstring :=
  match rest with
  | c :: rest' =>
      if in_class fl cl c
      then orElse (star fl cl k (Some c) rest') (k prev rest)
      else k prev rest
  | [] => k prev rest
  end.

Definition isWordOpt (c : option char) : bool :=
  match c with Some x => isWordChar x | None => false end.

Definition at_bol (fl : flags) (prev : option char) : bool :=
  match prev with
  | None => true
  | Some c => multiline fl && isLineTerminator c
  end.

Definition at_eol (fl : flags) (rest : jsstring) : bool :=
  match rest with
  | [] => true
  | c :: _ => multiline fl && isLineTerminator c
  end.

(** The backtracking matcher of the specification, in continuation-passing
    style. *)
Fixpoint m (fl : flags) (r : regex) (k : K) (prev : option char)
    (rest : jsstring) : option jsstring :=
  match r with
  | Lit l => lit fl l k prev rest
  | Cls cl =>
      match rest with
      | c :: rest' => if in_class fl cl c then k (Some c) rest' else None
      | [] => None
      end
  | Seq r1 r2 => m fl r1 (m fl r2 k) prev rest
  | Alt r1 r2 => orElse (m fl r1 k prev rest) (m fl r2 k prev rest)
  | Opt r1 => orElse (m fl r1 k prev rest) (k prev rest)
  | Star cl => star fl cl k prev rest
  | Plus cl =>
      match rest with
      | c :: rest' => if in_class fl cl c then star fl cl k (Some c) rest' else None
      | [] => None
      end
  | Bol => if at_bol fl prev then k prev rest else None
  | Eol => if at_eol fl rest then k prev rest else None
  | WordB =>
      if xorb (isWordOpt prev) (isWordOpt (hd_error rest)) then k prev rest else None
  | NotBehind cl =>
      match prev with
      | Some c => if in_class fl cl c then None else k prev rest
      | None => k prev rest
      end
  end.

(** The leftmost match at or after the current position: the rest of the
    input where the match starts and the rest after it. *)
Fixpoint search (fl : flags) (r : regex) (prev : option char) (s : jsstring)
    : option (jsstring * jsstring) :=
  match m fl r kend prev s with
  | Some e => Some (s, e)
  | None =>
      match s with
      | [] => None
      | c :: s' => search fl r (Some c) s'
      end
  end.

Definition isSome {A : Type} (o : option A) : bool :=
  match o with Some _ => true | None => false end.

(** [re.test(s)] for a pattern without [g] and [y], which starts at index 0
    whatever [lastIndex] holds. *)
Definition test (fl : flags) (r : regex) (s : jsstring) : bool :=
  isSome (search fl r None s).

(* ================================================================== *)
(** ** Writing patterns *)
(* ================================================================== *)

Definition L (s : string) : regex := Lit (u s).
Coercion L : string >-> regex.

Definition chr (a : ascii) : citem := CChar (N_of_ascii a).
Definition rng (a b : ascii) : citem := CRange (N_of_ascii a) (N_of_ascii b).
Arguments chr a%_char.
Arguments rng a%_char b%_char.

Declare Scope re_scope.
Delimit Scope re_scope with re.
Bind Scope re_scope with regex.
Notation "a ;; b" := (Seq a b) (at level 41, right associativity) : re_scope.
Notation "a <|> b" := (Alt a b) (at level 51, right associativity) : re_scope.

Definition cs : cclass := OneOf [CSpace].          (* \s *)
Definition cw : cclass := OneOf [CWord].           (* \w *)
Definition s_star : regex := Star cs.              (* \s* *)
Definition s_plus : regex := Plus cs.              (* \s+ *)
Definition w_star : regex := Star cw.              (* \w* *)
Definition w_plus : regex := Plus cw.              (* \w+ *)
Definition set (items : list citem) : regex := Cls (OneOf items).

Local Open Scope string_scope.
Local Open Scope re_scope.

(* ================================================================== *)
(** ** The Pattern Registry *)
(* ================================================================== *)

Record LanguageInfo : Type := {
  name : string;
  monacoId : string;
  icon : string;
  color : string
}.

Record PatternRule : Type := { pattern : flags * regex; lang : LanguageInfo }.

Definition Java : LanguageInfo :=
  {| name := "Java"; monacoId := "java"; icon := "☕"; color := "#B07219" |}.
Definition Cpp : LanguageInfo :=
  {| name := "C++"; monacoId := "cpp"; icon := "⚡"; color := "#F34B7D" |}.
Definition C : LanguageInfo :=
  {| name := "C"; monacoId := "c"; icon := "🔧"; color := "#555555" |}.
Definition TypeScript : LanguageInfo :=
  {| name := "TypeScript"; monacoId := "typescript"; icon := "📘"; color := "#3178C6" |}.
Definition Go : LanguageInfo :=
  {| name := "Go"; monacoId := "go"; icon := "🐹"; color := "#00ADD8" |}.
Definition Rust : LanguageInfo :=
  {| name := "Rust"; monacoId := "rust"; icon := "🦀"; color := "#DEA584" |}.
Definition Python : LanguageInfo :=
  {| name := "Python"; monacoId := "python"; icon := "🐍"; color := "#3572A5" |}.
Definition JavaScript : LanguageInfo :=
  {| name := "JavaScript"; monacoId := "javascript"; icon := "📜"; color := "#F7DF1E" |}.
Definition Ruby : LanguageInfo :=
  {| name := "Ruby"; monacoId := "ruby"; icon := "💎"; color := "#CC342D" |}.
Definition PHP : LanguageInfo :=
  {| name := "PHP"; monacoId := "php"; icon := "🐘"; color := "#4F5D95" |}.
Definition PlainText : LanguageInfo :=
  {| name := "Plain Text"; monacoId := "plaintext"; icon := "📄"; color := "#6B7280" |}.

(** /public\s+(class|static|void)|private\s+(class|static|void)|System\.out\.print|class\s+\w+\s*(extends|implements)?\s*\{|void\s+main\s*\(\s*String/ *)
Definition re_java : regex :=
  ("public" ;; s_plus ;; ("class" <|> "static" <|> "void"))
  <|> ("private" ;; s_plus ;; ("class" <|> "static" <|> "void"))
  <|> "System.out.print"
  <|> ("class" ;; s_plus ;; w_plus ;; s_star ;; Opt ("extends" <|> "implements") ;; s_star ;; "{")
  <|> ("void" ;; s_plus ;; "main" ;; s_star ;; "(" ;; s_star ;; "String").

(** /#include\s*<(iostream|vector|string|algorithm|map|set|queue|stack)>|std::|cout\s*<<|cin\s*>>|using\s+namespace\s+std|nullptr|::\w+\(|template\s*</ *)
Definition re_cpp : regex :=
  ("#include" ;; s_star ;; "<" ;;
     ("iostream" <|> "vector" <|> "string" <|> "algorithm" <|> "map" <|> "set"
      <|> "queue" <|> "stack") ;; ">")
  <|> "std::"
  <|> ("cout" ;; s_star ;; "<<")
  <|> ("cin" ;; s_star ;; ">>")
  <|> ("using" ;; s_plus ;; "namespace" ;; s_plus ;; "std")
  <|> "nullptr"
  <|> ("::" ;; w_plus ;; "(")
  <|> ("template" ;; s_star ;; "<").

(** /#include\s*<(stdio|stdlib|string|math|ctype|time)\.h>|printf\s*\(|scanf\s*\(|int\s+main\s*\(\s*(void)?\s*\)|malloc\s*\(|free\s*\(/ *)
Definition re_c : regex :=
  ("#include" ;; s_star ;; "<" ;;
     ("stdio" <|> "stdlib" <|> "string" <|> "math" <|> "ctype" <|> "time") ;; ".h>")
  <|> ("printf" ;; s_star ;; "(")
  <|> ("scanf" ;; s_star ;; "(")
  <|> ("int" ;; s_plus ;; "main" ;; s_star ;; "(" ;; s_star ;; Opt "void" ;; s_star ;; ")")
  <|> ("malloc" ;; s_star ;; "(")
  <|> ("free" ;; s_star ;; "(").

(** /:\s*(string|number|boolean|void|any|never)\s*[;,\)=\{]|interface\s+\w+\s*\{|type\s+\w+\s*=|<\w+>\s*\(|React\.(FC|Component)|:\s*\w+\[\]/ *)
Definition re_typescript : regex :=
  (":" ;; s_star ;; ("string" <|> "number" <|> "boolean" <|> "void" <|> "any" <|> "never") ;;
     s_star ;; set [chr ";"; chr ","; chr ")"; chr "="; chr "{"])
  <|> ("interface" ;; s_plus ;; w_plus ;; s_star ;; "{")
  <|> ("type" ;; s_plus ;; w_plus ;; s_star ;; "=")
  <|> ("<" ;; w_plus ;; ">" ;; s_star ;; "(")
  <|> ("React." ;; ("FC" <|> "Component"))
  <|> (":" ;; s_star ;; w_plus ;; "[]").

(** /^package\s+\w+|func\s+\w+\s*\([^)]*\)\s*\{|func\s+\(\w+\s+\*?\w+\)|fmt\.(Print|Scan)|:=\s*|import\s+\(/m *)
Definition re_go : regex :=
  (Bol ;; "package" ;; s_plus ;; w_plus)
  <|> ("func" ;; s_plus ;; w_plus ;; s_star ;; "(" ;; Star (NoneOf [chr ")"]) ;; ")" ;;
         s_star ;; "{")
  <|> ("func" ;; s_plus ;; "(" ;; w_plus ;; s_plus ;; Opt "*" ;; w_plus ;; ")")
  <|> ("fmt." ;; ("Print" <|> "Scan"))
  <|> (":=" ;; s_star)
  <|> ("import" ;; s_plus ;; "(").

(** /fn\s+\w+\s*\([^)]*\)\s*(->\s*\w+)?\s*\{|let\s+mut\s+|println!\s*\(|impl\s+\w+|pub\s+fn|use\s+std::|match\s+\w+\s*\{/ *)
Definition re_rust : regex :=
  ("fn" ;; s_plus ;; w_plus ;; s_star ;; "(" ;; Star (NoneOf [chr ")"]) ;; ")" ;; s_star ;;
     Opt ("->" ;; s_star ;; w_plus) ;; s_star ;; "{")
  <|> ("let" ;; s_plus ;; "mut" ;; s_plus)
  <|> ("println!" ;; s_star ;; "(")
  <|> ("impl" ;; s_plus ;; w_plus)
  <|> ("pub" ;; s_plus ;; "fn")
  <|> ("use" ;; s_plus ;; "std::")
  <|> ("match" ;; s_plus ;; w_plus ;; s_star ;; "{").

(** /^\s*def\s+\w+\s*\(|^\s*class\s+\w+\s*:|^\s*import\s+\w+|^\s*from\s+\w+\s+import|(?<![.\w])print\s*\(|if\s+__name__\s*==\s*[\x22']__main__[\x22']|^\s*elif\s+|:\s*$/m *)
Definition re_python : regex :=
  (Bol ;; s_star ;; "def" ;; s_plus ;; w_plus ;; s_star ;; "(")
  <|> (Bol ;; s_star ;; "class" ;; s_plus ;; w_plus ;; s_star ;; ":")
  <|> (Bol ;; s_star ;; "import" ;; s_plus ;; w_plus)
  <|> (Bol ;; s_star ;; "from" ;; s_plus ;; w_plus ;; s_plus ;; "import")
  <|> (NotBehind (OneOf [chr "."; CWord]) ;; "print" ;; s_star ;; "(")
  <|> ("if" ;; s_plus ;; "__name__" ;; s_star ;; "==" ;; s_star ;;
         set [CChar DQ; chr "'"] ;; "__main__" ;; set [CChar DQ; chr "'"])
  <|> (Bol ;; s_star ;; "elif" ;; s_plus)
  <|> (":" ;; s_star ;; Eol).

(** /\bfunction\s+\w+\s*\(|\bconst\s+\w+\s*=|\blet\s+\w+\s*=|console\.(log|error|warn)\s*\(|=>\s*[\{\(]|module\.exports|require\s*\(['\x22]|document\.|window\./ *)
Definition re_javascript : regex :=
  (WordB ;; "function" ;; s_plus ;; w_plus ;; s_star ;; "(")
  <|> (WordB ;; "const" ;; s_plus ;; w_plus ;; s_star ;; "=")
  <|> (WordB ;; "let" ;; s_plus ;; w_plus ;; s_star ;; "=")
  <|> ("console." ;; ("log" <|> "error" <|> "warn") ;; s_star ;; "(")
  <|> ("=>" ;; s_star ;; set [chr "{"; chr "("])
  <|> "module.exports"
  <|> ("require" ;; s_star ;; "(" ;; set [chr "'"; CChar DQ])
  <|> "document."
  <|> "window.".

(** /^\s*def\s+\w+|^\s*end\s*$|puts\s+|require\s+['\x22]|class\s+\w+\s*<|attr_(accessor|reader|writer)|\.each\s+do/m *)
Definition re_ruby : regex :=
  (Bol ;; s_star ;; "def" ;; s_plus ;; w_plus)
  <|> (Bol ;; s_star ;; "end" ;; s_star ;; Eol)
  <|> ("puts" ;; s_plus)
  <|> ("require" ;; s_plus ;; set [chr "'"; CChar DQ])
  <|> ("class" ;; s_plus ;; w_plus ;; s_star ;; "<")
  <|> ("attr_" ;; ("accessor" <|> "reader" <|> "writer"))
  <|> (".each" ;; s_plus ;; "do").

(** /<\?php|\$\w+\s*=|echo\s+['\x22\$]|function\s+\w+\s*\(.*\)\s*\{|\$this->|namespace\s+\w+;/ *)
Definition re_php : regex :=
  "<?php"
  <|> ("$" ;; w_plus ;; s_star ;; "=")
  <|> ("echo" ;; s_plus ;; set [chr "'"; CChar DQ; chr "$"])
  <|> ("function" ;; s_plus ;; w_plus ;; s_star ;; "(" ;; Star Dot ;; ")" ;; s_star ;; "{")
  <|> "$this->"
  <|> ("namespace" ;; s_plus ;; w_plus ;; ";").

(** The table, in the order of the source.  (In the comments that quote a
    pattern, its double quote is written [\x22].) *)
Definition LANGUAGE_PATTERNS : list PatternRule :=
  [ {| pattern := (no_flags, re_java);       lang := Java |};
    {| pattern := (no_flags, re_cpp);        lang := Cpp |};
    {| pattern := (no_flags, re_c);          lang := C |};
    {| pattern := (no_flags, re_typescript); lang := TypeScript |};
    {| pattern := (flag_m,   re_go);         lang := Go |};
    {| pattern := (no_flags, re_rust);       lang := Rust |};
    {| pattern := (flag_m,   re_python);     lang := Python |};
    {| pattern := (no_flags, re_javascript); lang := JavaScript |};
    {| pattern := (flag_m,   re_ruby);       lang := Ruby |};
    {| pattern := (no_flags, re_php);        lang := PHP |} ].

(* ================================================================== *)
(** ** The prose scorer *)
(* ================================================================== *)

(** /^(def|function|class|public|private)\s+\w+/ *)
Definition re_short_decl : regex :=
  Bol ;; ("def" <|> "function" <|> "class" <|> "public" <|> "private") ;; s_plus ;; w_plus.

(** /[{};]\s*$/ *)
Definition re_short_term : regex :=
  set [chr "{"; chr "}"; chr ";"] ;; s_star ;; Eol.

(** /^[A-Z][a-zA-Z\s,'\x22]+[.!?]$/ *)
Definition re_sentence : regex :=
  Bol ;; set [rng "A" "Z"] ;;
  Plus (OneOf [rng "a" "z"; rng "A" "Z"; CSpace; chr ","; chr "'"; CChar DQ]) ;;
  set [chr "."; chr "!"; chr "?"] ;; Eol.

(** /[=\[\]{}();]/ *)
Definition re_structure : regex :=
  set [chr "="; chr "["; chr "]"; chr "{"; chr "}"; chr "("; chr ")"; chr ";"].

(** /\b(your|you're|what's|here's|that's|it's|how to|this is|problem|issue)\b/i *)
Definition re_phrases : regex :=
  WordB ;;
  ("your" <|> "you're" <|> "what's" <|> "here's" <|> "that's" <|> "it's" <|> "how to"
   <|> "this is" <|> "problem" <|> "issue") ;;
  WordB.

(** /^[•\-\*✅❌]\s+/ : U+2022, the hyphen, the asterisk, U+2705, U+274C *)
Definition re_bullet : regex :=
  Bol ;; set [CChar 0x2022%N; chr "-"; chr "*"; CChar 0x2705%N; CChar 0x274C%N] ;; s_plus.

(** /^[A-Z][A-Z\s]+$/ *)
Definition re_allcaps : regex :=
  Bol ;; set [rng "A" "Z"] ;; Plus (OneOf [rng "A" "Z"; CSpace]) ;; Eol.

(** /^[a-zA-Z\s]+$/ *)
Definition re_words : regex :=
  Bol ;; Plus (OneOf [rng "a" "z"; rng "A" "Z"; CSpace]) ;; Eol.

(** /^(if|for|while|def|class|return|import|from)\s/ *)
Definition re_keyword_head : regex :=
  Bol ;;
  ("if" <|> "for" <|> "while" <|> "def" <|> "class" <|> "return" <|> "import" <|> "from") ;;
  Cls cs.

(** /^\s*(def|function|class|public|private|void|int|bool)\s+\w+/ *)
Definition re_code_decl : regex :=
  Bol ;; s_star ;;
  ("def" <|> "function" <|> "class" <|> "public" <|> "private" <|> "void" <|> "int"
   <|> "bool") ;;
  s_plus ;; w_plus.

(** /^\s*(if|for|while|elif|else|switch|match|try|catch|finally|with|func|fn)\b/ *)
Definition re_code_control : regex :=
  Bol ;; s_star ;;
  ("if" <|> "for" <|> "while" <|> "elif" <|> "else" <|> "switch" <|> "match" <|> "try"
   <|> "catch" <|> "finally" <|> "with" <|> "func" <|> "fn") ;;
  WordB.

(** /^\s*(import|from\s+\w+\s+import|#include|require|use|package)\s/ *)
Definition re_code_import : regex :=
  Bol ;; s_star ;;
  ("import" <|> ("from" ;; s_plus ;; w_plus ;; s_plus ;; "import") <|> "#include"
   <|> "require" <|> "use" <|> "package") ;;
  Cls cs.

(** /[{};:]\s*$/ *)
Definition re_code_term : regex :=
  set [chr "{"; chr "}"; chr ";"; chr ":"] ;; s_star ;; Eol.

(** /=/ *)
Definition re_equals : regex := "=".

(** /[a-z_]\w*\s*(=|\+=|-=)/i *)
Definition re_assign : regex :=
  set [rng "a" "z"; chr "_"] ;; w_star ;; s_star ;; ("=" <|> "+=" <|> "-=").

(** /[{};]/g, the class of the structural symbols *)
Definition re_symbols : regex := set [chr "{"; chr "}"; chr ";"].

(** The matches of a global pattern, left to right: the loop of
    [RegExp.prototype[Symbol.match]].  [skip] counts the characters that the
    previous match still covers; after an empty match the search resumes one
    character further. *)
Fixpoint match_all (fl : flags) (r : regex) (prev : option char) (s : jsstring)
    (skip : nat) {struct s} : list jsstring :=
  match skip with
  | S n =>
      match s with
      | [] => []
      | c :: s' => match_all fl r (Some c) s' n
      end
  | O =>
      match m fl r kend prev s with
      | Some e =>
          let n := length s - length e in
          firstn n s ::
            match s with
            | [] => []
            | c :: s' => match_all fl r (Some c) s' (n - 1)
            end
      | None =>
          match s with
          | [] => []
          | c :: s' => match_all fl r (Some c) s' 0
          end
      end
  end.

(** [s.match(re)] for a pattern with the [g] flag: [null] when nothing
    matches, the array of the matched substrings otherwise. *)
Definition match_global (fl : flags) (r : regex) (s : jsstring)
    : option (list jsstring) :=
  match match_all fl r None s 0 with
  | [] => None
  | ms => Some ms
  end.

(** The values an optional chain [x?.length] can take here. *)
Inductive jsval : Type :=
| JUndefined
| JNumber (n : nat).

(** [x?.length]: [undefined] when [x] is [null]. *)
Definition optLength (x : option (list jsstring)) : jsval :=
  match x with
  | None => JUndefined
  | Some a => JNumber (length a)
  end.

(** [v < n]: [undefined] converts to NaN, and every comparison with NaN is
    false. *)
Definition js_lt (v : jsval) (n : nat) : bool :=
  match v with
  | JUndefined => false
  | JNumber k => Nat.ltb k n
  end.

(** [p / t > q] on line counts, with the exact quotient.  The program
    divides binary64 numbers: the counts convert exactly, the quotient is
    rounded to nearest and 0.4 stands for the binary64 number nearest to
    it; [ratio_gt_binary64] below computes that, and the two comparisons
    are checked against each other on a range of counts. *)
Definition ratio_gt (p t : nat) (q : Q) : bool :=
  negb (Qle_bool (inject_Z (Z.of_nat p) / inject_Z (Z.of_nat t))%Q q).

Definition isProse (trimmed : jsstring) : bool :=
  test no_flags re_sentence trimmed
  || (negb (test no_flags re_structure trimmed) && test flag_i re_phrases trimmed)
  || test no_flags re_bullet trimmed
  || test no_flags re_allcaps trimmed
  || (Nat.ltb (length trimmed) 30 && test no_flags re_words trimmed
      && negb (test no_flags re_keyword_head trimmed)).

Definition isCode (trimmed : jsstring) : bool :=
  test no_flags re_code_decl trimmed
  || test no_flags re_code_control trimmed
  || test no_flags re_code_import trimmed
  || test no_flags re_code_term trimmed
  || (test no_flags re_equals trimmed && test flag_i re_assign trimmed).

(** One turn of the loop over the lines, on the pair
    [(proseLines, codeLines)]. *)
Definition countLine (acc : nat * nat) (line : jsstring) : nat * nat :=
  let trimmed := trim line in
  let '(proseLines, codeLines) := acc in
  if isProse trimmed && negb (isCode trimmed) then (S proseLines, codeLines)
  else if isCode trimmed && negb (isProse trimmed) then (proseLines, S codeLines)
  else (proseLines, codeLines).

Definition countLines (lines : list jsstring) : nat * nat :=
  fold_left countLine lines (0, 0).

(** [code.trim().split('\n').filter(l => l.trim())] *)
Definition nonEmptyLines (code : jsstring) : list jsstring :=
  filter (fun l => truthy (trim l)) (split_LF (trim code)).

Definition isPlainText (code : jsstring) : bool :=
  let lines := nonEmptyLines code in
  if Nat.ltb (length lines) 2 then
    let text := trim code in
    if test no_flags re_short_decl text then false
    else if test no_flags re_short_term text then false
    else true
  else
    let '(proseLines, codeLines) := countLines lines in
    let total := proseLines + codeLines in
    if Nat.ltb 0 total then ratio_gt proseLines total (4 # 10)%Q
    else Nat.ltb 3 (length lines) && js_lt (optLength (match_global flag_g re_symbols code)) 3.

(* ================================================================== *)
(** ** The classifier *)
(* ================================================================== *)

Definition testRule (code : jsstring) (p : PatternRule) : bool :=
  test (fst (pattern p)) (snd (pattern p)) code.

(** The loop over the table: the descriptor of the first rule whose pattern
    matches, the Plain Text descriptor when the loop ends. *)
Fixpoint firstMatch (rules : list PatternRule) (code : jsstring) : LanguageInfo :=
  match rules with
  | [] => PlainText
  | p :: rules' => if testRule code p then lang p else firstMatch rules' code
  end.

(** The classifier over any table of rules. *)
Definition detectLanguageWith (rules : list PatternRule) (code : jsstring)
    : LanguageInfo :=
  if isPlainText code then PlainText else firstMatch rules code.

Definition detectLanguage (code : jsstring) : LanguageInfo :=
  detectLanguageWith LANGUAGE_PATTERNS code.

(* ================================================================== *)
(** ** Sample inputs and reference data *)
(* ================================================================== *)

Local Open Scope list_scope.

Definition nl : jsstring := [LF].

(** The eleven descriptors a call can return. *)
Definition descriptors : list LanguageInfo :=
  [Java; Cpp; C; TypeScript; Go; Rust; Python; JavaScript; Ruby; PHP; PlainText].

(** A sentence that names a Java call: the Java pattern matches it, the
    scorer calls it prose, and the classifier answers Plain Text. *)
Definition java_sentence : jsstring :=
  u "In Java you write System.out.print to show text".

(** The page the component shows before any input. *)
Definition initial_code : jsstring :=
  u "// Paste your code here" ++ nl ++ u "function example() {" ++ nl
  ++ u "  return " ++ [DQ] ++ u "Hello World" ++ [DQ] ++ u ";" ++ nl ++ u "}".

(* ================================================================== *)
(** ** The words of the specification *)
(* ================================================================== *)

(** [contains l s]: the text [s] holds the token [l]. *)
Definition contains (l s : jsstring) : Prop := exists a b, s = a ++ l ++ b.

(** The rest of [s] after the prefix [l], when [s] starts with it. *)
Fixpoint stripPrefix (l s : jsstring) : option jsstring :=
  match l with
  | [] => Some s
  | a :: l' =>
      match s with
      | c :: s' => if N.eqb a c then stripPrefix l' s' else None
      | [] => None
      end
  end.

(** The common declaration keywords of the short-input rule. *)
Definition declarationKeywords : list jsstring :=
  [u "def"; u "function"; u "class"; u "public"; u "private"].

(** White space, then the first character of an identifier. *)
Definition identifierFollows (s : jsstring) : bool :=
  match s with
  | c :: rest =>
      isSpace c &&
      match dropWhile isSpace rest with
      | d :: _ => isWordChar d
      | [] => false
      end
  | [] => false
  end.

(** The text begins with a declaration keyword followed by an identifier. *)
Definition beginsWithDeclaration (text : jsstring) : bool :=
  existsb (fun kw => match stripPrefix kw text with
                     | Some rest => identifierFollows rest
                     | None => false
                     end) declarationKeywords.

(** The structural symbols: the braces and the semicolon. *)
Definition isSymbol (c : char) : bool :=
  N.eqb c (N_of_ascii "{") || N.eqb c (N_of_ascii "}") || N.eqb c (N_of_ascii ";").

Fixpoint lastChar (s : jsstring) : option char :=
  match s with
  | [] => None
  | c :: s' => match s' with [] => Some c | _ :: _ => lastChar s' end
  end.

(** The text ends with a code-structural terminator character. *)
Definition endsWithTerminator (text : jsstring) : bool :=
  match lastChar text with
  | Some c => isSymbol c
  | None => false
  end.

(** The number of structural symbols of a text. *)
Definition symbolCount (code : jsstring) : nat := length (filter isSymbol code).

(* ================================================================== *)
(** ** RegExp objects and the state of the table *)
(* ================================================================== *)

(** The table is built once, when the module loads, and its RegExp objects
    live as long as the page: what a call could leave behind for the next
    one is their [lastIndex]. *)
Record RegExpObject : Type := {
  flagsOf : flags;
  source : regex;
  lastIndex : nat
}.

Definition setLastIndex (R : RegExpObject) (i : nat) : RegExpObject :=
  {| flagsOf := flagsOf R; source := source R; lastIndex := i |}.

(** [R.test(S)], after RegExpBuiltinExec: a pattern with [g] or [y] starts
    at [lastIndex] and stores the end of the match there (0 on failure); any
    other pattern starts at 0 and leaves [lastIndex] alone. *)
Definition RegExp_test (R : RegExpObject) (S : jsstring) : bool * RegExpObject :=
  let fl := flagsOf R in
  let tracked := global fl || sticky fl in
  let start := if tracked then lastIndex R else 0 in
  if Nat.ltb (length S) start then (false, if tracked then setLastIndex R 0 else R)
  else
    let prev := match start with O => None | S i => nth_error S i end in
    let rest := skipn start S in
    let found := if sticky fl then m fl (source R) kend prev rest
                 else option_map snd (search fl (source R) prev rest) in
    match found with
    | Some e => (true, if tracked then setLastIndex R (length S - length e) else R)
    | None => (false, if tracked then setLastIndex R 0 else R)
    end.

Record RuleObject : Type := { patternObject : RegExpObject; langOf : LanguageInfo }.

(** The rule an object stands for, its [lastIndex] forgotten. *)
Definition ruleOf (o : RuleObject) : PatternRule :=
  {| pattern := (flagsOf (patternObject o), source (patternObject o)); lang := langOf o |}.

Definition newRuleObject (p : PatternRule) : RuleObject :=
  {| patternObject := {| flagsOf := fst (pattern p); source := snd (pattern p);
                         lastIndex := 0 |};
     langOf := lang p |}.

(** The table as the module creates it. *)
Definition initialTable : list RuleObject := map newRuleObject LANGUAGE_PATTERNS.

(** The loop of [detectLanguage] over the objects: the answer and the table
    as the loop leaves it. *)
Fixpoint firstMatchObjects (rules : list RuleObject) (code : jsstring)
    : LanguageInfo * list RuleObject :=
  match rules with
  | [] => (PlainText, [])
  | o :: rules' =>
      let (b, R') := RegExp_test (patternObject o) code in
      let o' := {| patternObject := R'; langOf := langOf o |} in
      if b then (langOf o, o' :: rules')
      else let (d, rest) := firstMatchObjects rules' code in (d, o' :: rest)
  end.

(** The patterns inside [isPlainText] are literals of the function body: a
    call evaluates them to fresh objects, which is what [test] stands for. *)
Definition detectLanguageObjects (table : list RuleObject) (code : jsstring)
    : LanguageInfo * list RuleObject :=
  if isPlainText code then (PlainText, table) else firstMatchObjects table code.

(** A session: the calls on [inputs], one after the other, on one table. *)
Fixpoint session (table : list RuleObject) (inputs : list jsstring)
    : list LanguageInfo * list RuleObject :=
  match inputs with
  | [] => ([], table)
  | t :: inputs' =>
      let (d, table1) := detectLanguageObjects table t in
      let (ds, table2) := session table1 inputs' in
      (d :: ds, table2)
  end.

(** A rule whose pattern has neither [g] nor [y]. *)
Definition untracked (o : RuleObject) : Prop :=
  global (flagsOf (patternObject o)) = false /\ sticky (flagsOf (patternObject o)) = false.

(* ================================================================== *)
(** ** The quotient as a binary64 number *)
(* ================================================================== *)

(** The numbers of the program are IEEE 754 binary64 values. *)
Definition binary64 : Set := PrimFloat.float.

Section Literal.
Import PrimFloat.
(** The literal [0.4]: the binary64 number nearest to it. *)
Definition literal_0_4 : binary64 := 0x1.999999999999ap-2%float.
End Literal.

(** A counter that starts at [0] and went through [n] increments [x++]. *)
Fixpoint toFloat (n : nat) : binary64 :=
  match n with
  | O => PrimFloat.zero
  | S k => PrimFloat.add (toFloat k) PrimFloat.one
  end.

(** [fp / ft > 0.4] on binary64 numbers. *)
Definition quotient_gt (fp ft : binary64) : bool :=
  PrimFloat.ltb literal_0_4 (PrimFloat.div fp ft).

(** [proseLines / total > 0.4] as the program computes it, after [p]
    increments of [proseLines] and [c] of [codeLines], with
    [total = proseLines + codeLines]. *)
Definition ratio_gt_binary64 (p c : nat) : bool :=
  quotient_gt (toFloat p) (PrimFloat.add (toFloat p) (toFloat c)).

(** The binary64 comparison against the exact one, [2 (p + c) < 5 p], for
    one value of [proseLines] and [fuel] successive values of [codeLines];
    the counters are carried along as binary64 numbers and as integers. *)
Fixpoint agree_row (fuel : nat) (fp fc : binary64) (zp zc : Z) : bool :=
  match fuel with
  | O => true
  | S f =>
      (Z.eqb (zp + zc) 0
       || Bool.eqb (quotient_gt fp (PrimFloat.add fp fc))
                   (Z.ltb (2 * (zp + zc)) (5 * zp)))
      && agree_row f fp (PrimFloat.add fc PrimFloat.one) zp (zc + 1)
  end.

(** The same for [fuel] successive values of [proseLines], each with the
    values of [codeLines] that keep the total below [fuel]. *)
Fixpoint agree_rows (fuel : nat) (fp : binary64) (zp : Z) : bool :=
  match fuel with
  | O => true
  | S f =>
      agree_row (S f) fp PrimFloat.zero zp 0
      && agree_rows f (PrimFloat.add fp PrimFloat.one) (zp + 1)
  end.

(* ================================================================== *)
(** ** More sample inputs *)
(* ================================================================== *)

Definition tok_std : jsstring := u "std::".
Definition tok_printf : jsstring := u "printf(".

(** One line of C++ that also calls [printf]. *)
Definition cpp_line : jsstring := u "int main(){ std::cout << 1; printf(1); }".

(** The same tokens inside a Java-style method. *)
Definition java_line : jsstring := u "public static void f() { std::x; printf(1); }".

(** A short statement no pattern of the table matches. *)
Definition bare_statement : jsstring := u "x;".

(** Two prose lines and three code lines: a ratio of exactly 0.4. *)
Definition two_of_five : jsstring :=
  u "Hello there." ++ nl ++ u "Nice day!" ++ nl ++ u "x = 1;" ++ nl ++ u "y = 2;" ++ nl
  ++ u "z = 3;".

(** Three prose lines and two code lines. *)
Definition three_of_five : jsstring :=
  u "Hello there." ++ nl ++ u "Nice day!" ++ nl ++ u "Good." ++ nl ++ u "y = 2;" ++ nl
  ++ u "z = 3;".

(** Four neutral lines without any structural symbol. *)
Definition four_numbers : jsstring :=
  u "1" ++ nl ++ u "2" ++ nl ++ u "3" ++ nl ++ u "4".

(** Five neutral lines without any structural symbol. *)
Definition five_numbers : jsstring :=
  u "12" ++ nl ++ u "34" ++ nl ++ u "56" ++ nl ++ u "78" ++ nl ++ u "90".

(** Four neutral lines with one structural symbol. *)
Definition four_with_symbol : jsstring :=
  u "1;2" ++ nl ++ u "3" ++ nl ++ u "4" ++ nl ++ u "5".

(** The table after some use, had a call moved every [lastIndex]. *)
Definition usedTable : list RuleObject :=
  map (fun o => {| patternObject := setLastIndex (patternObject o) 7; langOf := langOf o |})
      initialTable.

(** A pattern with the [g] flag, which the table does not have. *)
Definition globalObject : RegExpObject :=
  {| flagsOf := flag_g; source := L "a"; lastIndex := 0 |}.

(* ================================================================== *)
(** ** The rest of the page: the toolbar *)
(* ================================================================== *)

(** [code.split('\n').length], the line count the toolbar shows. *)
Definition lineCount (code : jsstring) : nat := length (split_LF code).

(** [code.length], the character count beside it. *)
Definition charCount (code : jsstring) : nat := length code.

(** The characters that end a line of code for the loop: the structural
    symbols and the colon. *)
Definition isCodeTerminator (c : char) : bool :=
  isSymbol c || N.eqb c (N_of_ascii ":").

(** The trimmed line ends with one of them. *)
Definition terminated (line : jsstring) : Prop :=
  exists c, lastChar (trim line) = Some c /\ isCodeTerminator c = true.

(** Two statements, one per line. *)
Definition two_statements : jsstring := u "total += price;" ++ nl ++ u "count++;".

(* ================================================================== *)
(** ** Tokens that settle a pattern *)
(* ================================================================== *)

Definition SQ : char := N_of_ascii "'".

(** Literal tokens read off the alternatives of the table's patterns, each
    with the position of its rule in the table (0 for Java, 9 for PHP).  They
    come from alternatives without [^], [$], [\b] or a lookbehind, with every
    [\s*] left empty and every [\s+] one blank. *)
Definition literalTriggers : list (nat * jsstring) :=
  [ (0, u "System.out.print"); (0, u "public class"); (0, u "public static");
    (0, u "public void"); (0, u "private class"); (0, u "private static");
    (0, u "private void");
    (1, u "std::"); (1, u "nullptr"); (1, u "cout<<"); (1, u "cin>>");
    (1, u "#include <iostream>"); (1, u "#include <vector>");
    (1, u "using namespace std"); (1, u "template<");
    (2, u "printf("); (2, u "scanf("); (2, u "malloc("); (2, u "free(");
    (2, u "#include <stdio.h>"); (2, u "#include <stdlib.h>");
    (2, u "int main()"); (2, u "int main(void)");
    (3, u "React.FC"); (3, u "React.Component");
    (4, u ":="); (4, u "fmt.Print"); (4, u "fmt.Scan"); (4, u "import (");
    (5, u "println!("); (5, u "let mut "); (5, u "pub fn"); (5, u "use std::");
    (6, u "if __name__ == '__main__'");
    (7, u "module.exports"); (7, u "document."); (7, u "window.");
    (7, u "console.log("); (7, u "console.error("); (7, u "console.warn(");
    (7, u "require('");
    (8, u "puts "); (8, u "attr_accessor"); (8, u "attr_reader"); (8, u "attr_writer");
    (8, u "require '"); (8, u ".each do");
    (9, u "<?php"); (9, u "$this->"); (9, u "echo '"); (9, u "echo $") ].

(* ================================================================== *)
(** ** The result panel: the driver label *)
(* ================================================================== *)

(** [s.includes(sub)] *)
Fixpoint includes (sub s : jsstring) : bool :=
  isSome (stripPrefix sub s)
  || match s with
     | [] => false
     | _ :: s' => includes sub s'
     end.

(** [s.split(sep)[0]] for a separator that is not empty: the text before
    the first occurrence of the separator, the whole text without one. *)
Fixpoint firstPiece (sep s : jsstring) : jsstring :=
  match stripPrefix sep s with
  | Some _ => []
  | None =>
      match s with
      | [] => []
      | c :: s' => c :: firstPiece sep s'
      end
  end.

Definition commaSpace : jsstring := u ", ".
Definition mainName : jsstring := u "main".

(** [field?.split(', ')[0] || "main"], the name after "Driver:"; the field
    ([worstTimeFunction] or [worstSpaceFunction]) may be missing, and the
    optional chain then skips the call and the index. *)
Definition driverLabel (field : option jsstring) : jsstring :=
  match field with
  | None => mainName
  | Some s =>
      let piece := firstPiece commaSpace s in
      if truthy piece then piece else mainName
  end.

(* ================================================================== *)
(** ** The component: text, badge and editor mode *)
(* ================================================================== *)

(** The state variables the editor handlers and the detection effect read
    and write: [code], [detectedLanguage], [isDirty] and
    [showLanguageAnimation].  ([loading], [result] and [error] belong to
    [handleAnalyze], which touches none of these four but [isDirty].) *)
Record EditorState : Type := {
  code : jsstring;
  detectedLanguage : LanguageInfo;
  isDirty : bool;
  showLanguageAnimation : bool
}.

(** The values of [useState] at the first render. *)
Definition initialState : EditorState :=
  {| code := initial_code;
     detectedLanguage := detectLanguage initial_code;
     isDirty := false;
     showLanguageAnimation := false |}.

(** What happens to the component between two renders. *)
Inductive Event : Type :=
| EditorChange (value : option jsstring)  (* onChange of the editor *)
| FileLoaded (text : jsstring)            (* reader.onload with a string *)
| AnimationTimeout.                       (* the timer of the animation *)

(** [handleEditorChange]: [value || ""] becomes the text. *)
Definition handleEditorChange (value : option jsstring) (st : EditorState)
    : EditorState :=
  let newCode := match value with
                 | Some v => v
                 | None => []
                 end in
  {| code := newCode;
     detectedLanguage := detectedLanguage st;
     isDirty := true;
     showLanguageAnimation := showLanguageAnimation st |}.

(** The [onload] handler of [handleFileUpload], on these state variables. *)
Definition fileLoaded (text : jsstring) (st : EditorState) : EditorState :=
  {| code := text;
     detectedLanguage := detectedLanguage st;
     isDirty := true;
     showLanguageAnimation := showLanguageAnimation st |}.

Definition handleEvent (e : Event) (st : EditorState) : EditorState :=
  match e with
  | EditorChange value => handleEditorChange value st
  | FileLoaded text => fileLoaded text st
  | AnimationTimeout =>
      {| code := code st;
         detectedLanguage := detectedLanguage st;
         isDirty := isDirty st;
         showLanguageAnimation := false |}
  end.

(** The effect "auto-detect language when code changes": the badge is
    replaced when the name of the new descriptor differs from the name of
    the current one. *)
Definition autoDetect (st : EditorState) : EditorState :=
  let newLang := detectLanguage (code st) in
  if negb (String.eqb (name newLang) (name (detectedLanguage st)))
  then {| code := code st;
          detectedLanguage := newLang;
          isDirty := isDirty st;
          showLanguageAnimation := true |}
  else st.

(** An event, the render it causes and the effect after that render.  (The
    effect runs when its dependencies changed; when they did not, running it
    changes nothing.) *)
Definition step (st : EditorState) (e : Event) : EditorState :=
  autoDetect (handleEvent e st).

Definition run (events : list Event) : EditorState :=
  fold_left step events (autoDetect initialState).

(** The mode the Monaco editor is given: [language={detectedLanguage.monacoId}]. *)
Definition editorMode (st : EditorState) : string := monacoId (detectedLanguage st).

(* ================================================================== *)
(** ** The history page: the search filter *)
(* ================================================================== *)

(** A call returns a value or throws the TypeError of a property read on
    [undefined]. *)
Inductive outcome (A : Type) : Type :=
| Returned (a : A)
| ThrowsTypeError.
Arguments Returned {A} a.
Arguments ThrowsTypeError {A}.

Section HistoryFilter.

(** The stored results: [fileName] is optional in [AnalysisResult],
    [language] is not; the filter reads nothing else. *)
Variable Item : Type.
Variable fileNameOf : Item -> option jsstring.
Variable languageOf : Item -> jsstring.
(** [String.prototype.toLowerCase] *)
Variable toLowerCase : jsstring -> jsstring.

(** The predicate of the filter:
    [item.fileName.toLowerCase().includes(searchTerm.toLowerCase()) ||
     item.language.toLowerCase().includes(searchTerm.toLowerCase())] *)
Definition matchesSearch (searchTerm : jsstring) (item : Item) : outcome bool :=
  match fileNameOf item with
  | None => ThrowsTypeError
  | Some f =>
      Returned (includes (toLowerCase searchTerm) (toLowerCase f)
                || includes (toLowerCase searchTerm) (toLowerCase (languageOf item)))
  end.

(** [history.filter(...)]: the predicate runs on the items in order, and
    its first exception ends the call. *)
Fixpoint filteredHistory (searchTerm : jsstring) (history : list Item)
    : outcome (list Item) :=
  match history with
  | [] => Returned []
  | item :: rest =>
      match matchesSearch searchTerm item with
      | ThrowsTypeError => ThrowsTypeError
      | Returned keep =>
          match filteredHistory searchTerm rest with
          | ThrowsTypeError => ThrowsTypeError
          | Returned kept => Returned (if keep then item :: kept else kept)
          end
      end
  end.

End HistoryFilter.

(** Lower case on the ASCII letters, to run the filter on ASCII text. *)
Definition asciiLowerCase (s : jsstring) : jsstring := map lowerASCII s.

(* ================================================================== *)
(** ** The session token: login, logout and the protected routes *)
(* ================================================================== *)

(** [localStorage]: keys with their values. *)
Definition Storage : Type := list (jsstring * jsstring).

Definition sameKey (k k' : jsstring) : bool :=
  if list_eq_dec N.eq_dec k k' then true else false.

(** [localStorage.getItem(k)]: [null] when the key is absent. *)
Fixpoint getItem (k : jsstring) (s : Storage) : option jsstring :=
  match s with
  | [] => None
  | (k', v) :: s' => if sameKey k k' then Some v else getItem k s'
  end.

(** [localStorage.removeItem(k)] *)
Definition removeItem (k : jsstring) (s : Storage) : Storage :=
  filter (fun kv => negb (sameKey k (fst kv))) s.

(** [localStorage.setItem(k, v)] *)
Definition setItem (k v : jsstring) (s : Storage) : Storage :=
  (k, v) :: removeItem k s.

Definition auth_token : jsstring := u "auth_token".
Definition loginPath : jsstring := u "/login".
Definition homePath : jsstring := u "/".

(** What a route wrapper renders. *)
Inductive Rendered : Type :=
| NavigateTo (path : jsstring)
| Outlet.

(** [ProtectedRoute]: [!token] holds for [null] and for the empty string. *)
Definition ProtectedRoute (s : Storage) : Rendered :=
  match getItem auth_token s with
  | None => NavigateTo loginPath
  | Some token => if truthy token then Outlet else NavigateTo loginPath
  end.

(** What a handler does besides writing to the storage. *)
Inductive Action : Type :=
| Alert (message : jsstring)
| Navigate (path : jsstring)
| NoAction.

(** [handleLogout] of the layout. *)
Definition handleLogout (s : Storage) : Storage * Action :=
  (removeItem auth_token s, Navigate loginPath).

(** The answer of [signInWithPassword]: [error] with its message, and the
    access token of [data.session]; each may be [null]. *)
Record AuthResponse : Type := {
  errorMessage : option jsstring;
  sessionToken : option jsstring
}.

(** [handleLogin], from the answer on. *)
Definition handleLogin (r : AuthResponse) (s : Storage) : Storage * Action :=
  match errorMessage r with
  | Some message => (s, Alert message)
  | None =>
      match sessionToken r with
      | Some token => (setItem auth_token token s, Navigate homePath)
      | None => (s, NoAction)
      end
  end.

(* ================================================================== *)
(** ** What the prose scorer reads of a text *)
(* ================================================================== *)

(** The lines of the raw text that are not blank, each one trimmed. *)
Definition trimmedLines (code : jsstring) : list jsstring :=
  map trim (filter (fun l => truthy (trim l)) (split_LF code)).

(** One turn of the loop, on a line that is trimmed already. *)
Definition countTrimmed (acc : nat * nat) (trimmed : jsstring) : nat * nat :=
  let '(proseLines, codeLines) := acc in
  if isProse trimmed && negb (isCode trimmed) then (S proseLines, codeLines)
  else if isCode trimmed && negb (isProse trimmed) then (proseLines, S codeLines)
  else (proseLines, codeLines).

(** The verdict as a function of the trimmed lines and of the number of
    structural symbols. *)
Definition verdictOf (lines : list jsstring) (symbols : nat) : bool :=
  if Nat.ltb (length lines) 2 then
    let text := hd [] lines in
    if test no_flags re_short_decl text then false
    else if test no_flags re_short_term text then false
    else true
  else
    let '(proseLines, codeLines) := fold_left countTrimmed lines (0, 0) in
    let total := proseLines + codeLines in
    if Nat.ltb 0 total then ratio_gt proseLines total (4 # 10)%Q
    else Nat.ltb 3 (length lines) && (Nat.leb 1 symbols && Nat.ltb symbols 3).

(* ================================================================== *)
(** ** The scenarios of the specification *)
(* ================================================================== *)


Example scenario1 :
  let code := u "def foo():" ++ nl ++ u "    return 1" in
  isPlainText code = false /\ detectLanguage code = Python.
Proof. vm_compute. split; reflexivity. Qed.

Example scenario2 :
  let code := u "function foo() { return 1; }" in
  isPlainText code = false /\ detectLanguage code = JavaScript.
Proof. vm_compute. split; reflexivity. Qed.

Example scenario3 :
  let code := u "This is a normal sentence about the weather today." in
  isPlainText code = true /\ detectLanguage code = PlainText.
Proof. vm_compute. split; reflexivity. Qed.

Example scenario4 :
  let code := u "#include <iostream>" ++ nl ++ u "int main(){ std::cout<<1; }" in
  isPlainText code = false /\ detectLanguage code = Cpp.
Proof. vm_compute. split; reflexivity. Qed.

Example scenario5 :
  let code := u "func main() {" ++ nl ++ u " fmt.Println(" ++ [DQ] ++ u "hi" ++ [DQ]
              ++ u ")" ++ nl ++ u "}" in
  isPlainText code = false /\ detectLanguage code = Go.
Proof. vm_compute. split; reflexivity. Qed.

Example scenario6 :
  isPlainText [] = true /\ detectLanguage [] = PlainText.
Proof. vm_compute. split; reflexivity. Qed.

(** The matcher on the assertions of the patterns. *)
Example lookbehind_blocks_method_call :
  test flag_m re_python (u "System.out.print(x)") = false /\
  test flag_m re_python (u "xprint(x)") = false /\
  test flag_m re_python (u " print(x)") = true.
Proof. vm_compute. repeat split; reflexivity. Qed.

Example word_boundary_before_function :
  test no_flags re_javascript (u "myfunction f(") = false /\
  test no_flags re_javascript (u "my function f(") = true.
Proof. vm_compute. repeat split; reflexivity. Qed.

Example caret_with_and_without_m :
  test flag_m re_go (u "x" ++ nl ++ u "package main") = true /\
  test no_flags re_go (u "x" ++ nl ++ u "package main") = false /\
  test flag_m re_ruby (u "foo" ++ nl ++ u "end" ++ nl ++ u "bar") = true.
Proof. vm_compute. repeat split; reflexivity. Qed.

Example phrases_ignore_case :
  test flag_i re_phrases (u "HERE'S the Problem") = true /\
  test no_flags re_phrases (u "HERE'S the Problem") = false /\
  test flag_i re_phrases (u "yourself") = false.
Proof. vm_compute. repeat split; reflexivity. Qed.

Example trim_and_lines :
  trim (u "  a b " ++ nl) = u "a b" /\
  nonEmptyLines (u " a " ++ nl ++ u "  " ++ nl ++ nl ++ u " b ") = [u "a "; u " b"] /\
  split_LF [] = [[]].
Proof. vm_compute. repeat split; reflexivity. Qed.

(** The text the component starts with. *)
Example initial_text : detectLanguage initial_code = JavaScript.
Proof. vm_compute. reflexivity. Qed.

(* ================================================================== *)
(** ** Facts about the table walk *)
(* ================================================================== *)

Section TableWalk.

Variable code : jsstring.

Lemma firstMatch_first (pre post : list PatternRule) (p : PatternRule) :
  (forall q, In q pre -> testRule code q = false) ->
  testRule code p = true ->
  firstMatch (pre ++ p :: post) code = lang p.
Proof.
  induction pre as [|q pre IH]; intros Hpre Hp; simpl.
  - now rewrite Hp.
  - rewrite (Hpre q (or_introl eq_refl)).
    apply IH; auto. intros q' Hq'. apply Hpre. now right.
Qed.

Lemma firstMatch_none (rules : list PatternRule) :
  (forall q, In q rules -> testRule code q = false) ->
  firstMatch rules code = PlainText.
Proof.
  induction rules as [|q rules IH]; intros H; simpl; auto.
  rewrite (H q (or_introl eq_refl)). apply IH. intros q' Hq'. apply H. now right.
Qed.

Lemma firstMatch_cases (rules : list PatternRule) :
  (firstMatch rules code = PlainText /\
   forall q, In q rules -> testRule code q = false)
  \/ exists p, In p rules /\ testRule code p = true /\ firstMatch rules code = lang p.
Proof.
  induction rules as [|q rules IH]; simpl.
  - left. split; auto. intros q [].
  - destruct (testRule code q) eqn:E.
    + right. exists q. auto.
    + destruct IH as [[H1 H2]|[p [Hin [Ht He]]]].
      * left. split; auto. intros q' [<-|Hq']; auto.
      * right. exists p. auto.
Qed.

End TableWalk.

Lemma registry_langs_not_plain (p : PatternRule) :
  In p LANGUAGE_PATTERNS -> lang p <> PlainText.
Proof.
  simpl. intros H.
  repeat (destruct H as [<-|H]; [simpl; discriminate|]). destruct H.
Qed.


Lemma registry_langs : map lang LANGUAGE_PATTERNS ++ [PlainText] = descriptors.
Proof. reflexivity. Qed.

Lemma detectLanguage_in_descriptors (code : jsstring) :
  In (detectLanguage code) descriptors.
Proof.
  rewrite <- registry_langs. apply in_or_app.
  unfold detectLanguage, detectLanguageWith.
  destruct (isPlainText code).
  - right. now left.
  - destruct (firstMatch_cases code LANGUAGE_PATTERNS) as [[-> _]|[p [Hin [_ ->]]]].
    + right. now left.
    + left. now apply in_map.
Qed.

(* ================================================================== *)
(** ** Claims on the classifier *)
(* ================================================================== *)

(** C1: prose short-circuit.  When the prose scorer answers [true] the
    classifier returns the Plain Text descriptor, and the table of patterns
    plays no part in that answer: it is the same over every table of rules,
    so also when a pattern of the program's table matches the text, and no
    RegExp object of the table is touched, whatever its flags. *)
Theorem C1_prose_short_circuit (code : jsstring) :
  isPlainText code = true ->
  detectLanguage code = PlainText
  /\ (forall rules : list PatternRule, detectLanguageWith rules code = PlainText)
  /\ (forall table : list RuleObject,
         detectLanguageObjects table code = (PlainText, table)).
Proof.
  intros H. unfold detectLanguage, detectLanguageWith, detectLanguageObjects.
  rewrite H. repeat split; auto.
Qed.


Lemma C1_prose_short_circuit_witness :
  isPlainText java_sentence = true /\
  firstMatch LANGUAGE_PATTERNS java_sentence = Java /\
  detectLanguage java_sentence = PlainText.
Proof.
  split; [vm_compute; reflexivity|].
  split; [vm_compute; reflexivity|].
  apply (C1_prose_short_circuit java_sentence). vm_compute; reflexivity.
Defined.

(** C10: closed range.  Every call returns one of eleven fixed descriptors:
    the ten of the table, in its order, or the Plain Text sentinel with name
    "Plain Text", mode "plaintext", the page icon and colour #6B7280; and a
    result named "Plain Text" has the mode "plaintext". *)
Theorem C10_closed_range (code : jsstring) :
  In (detectLanguage code)
     [Java; Cpp; C; TypeScript; Go; Rust; Python; JavaScript; Ruby; PHP; PlainText]
  /\ map name [Java; Cpp; C; TypeScript; Go; Rust; Python; JavaScript; Ruby; PHP]
     = ["Java"; "C++"; "C"; "TypeScript"; "Go"; "Rust"; "Python"; "JavaScript"; "Ruby";
        "PHP"]
  /\ map lang LANGUAGE_PATTERNS
     = [Java; Cpp; C; TypeScript; Go; Rust; Python; JavaScript; Ruby; PHP]
  /\ PlainText = {| name := "Plain Text"; monacoId := "plaintext"; icon := "📄";
                    color := "#6B7280" |}
  /\ (name (detectLanguage code) = "Plain Text" ->
      monacoId (detectLanguage code) = "plaintext").
Proof.
  pose proof (detectLanguage_in_descriptors code) as H.
  repeat split; auto.
  unfold descriptors in H. simpl in H.
  repeat (destruct H as [<-|H]; [simpl; intros E; (reflexivity || discriminate E)|]).
  destruct H.
Qed.

(* ================================================================== *)
(** ** Facts about strings *)
(* ================================================================== *)

(** Boolean tests on code units, read as arithmetic. *)
Ltac bools :=
  repeat match goal with
    | H : (_ || _) = true |- _ => apply orb_true_iff in H; destruct H as [H|H]
    | H : (_ && _) = true |- _ => let H' := fresh H in apply andb_true_iff in H; destruct H as [H H']
    | H : N.eqb _ _ = true |- _ => apply N.eqb_eq in H
    | H : N.leb _ _ = true |- _ => apply N.leb_le in H
    end.

Lemma space_not_word (c : char) : isSpace c = true -> isWordChar c = false.
Proof.
  intros H. destruct (isWordChar c) eqn:E; auto.
  unfold isSpace, isWhiteSpace, isLineTerminator in H. unfold isWordChar in E.
  bools; subst; try lia; try discriminate.
Qed.

Lemma space_not_symbol (c : char) : isSpace c = true -> isSymbol c = false.
Proof.
  intros H. destruct (isSymbol c) eqn:E; auto.
  unfold isSpace, isWhiteSpace, isLineTerminator in H. unfold isSymbol in E.
  simpl in E. bools; subst; try lia; try discriminate.
Qed.

Lemma dropWhile_all (p : char -> bool) (s : jsstring) :
  forallb p s = true -> dropWhile p s = [].
Proof.
  induction s as [|c s IH]; simpl; auto.
  destruct (p c); simpl; auto. discriminate.
Qed.

Lemma dropWhile_head (p : char -> bool) (s : jsstring) :
  match dropWhile p s with
  | [] => True
  | c :: _ => p c = false
  end.
Proof.
  induction s as [|c s IH]; simpl; auto.
  destruct (p c) eqn:E; auto.
Qed.

Lemma lastChar_app (s : jsstring) (c : char) : lastChar (s ++ [c]) = Some c.
Proof.
  induction s as [|d s IH]; simpl; auto.
  rewrite IH. destruct s; reflexivity.
Qed.

(** A trimmed text is empty or ends with a character that is no space. *)
Lemma trim_last (s : jsstring) :
  match lastChar (trim s) with
  | None => trim s = []
  | Some c => isSpace c = false
  end.
Proof.
  unfold trim, trimEnd.
  pose proof (dropWhile_head isSpace (rev (trimStart s))) as H.
  destruct (dropWhile isSpace (rev (trimStart s))) as [|c r]; simpl; auto.
  now rewrite lastChar_app.
Qed.

Lemma trim_spaces (s : jsstring) : forallb isSpace s = true -> trim s = [].
Proof.
  intros H. unfold trim, trimEnd, trimStart. now rewrite (dropWhile_all _ _ H).
Qed.

(* ================================================================== *)
(** ** Facts about the matcher *)
(* ================================================================== *)

Lemma isSome_orElse (a b : option jsstring) :
  isSome (orElse a b) = isSome a || isSome b.
Proof. destruct a; reflexivity. Qed.

Lemma in_class_cs (fl : flags) (c : char) : in_class fl cs c = isSpace c.
Proof. simpl. apply orb_false_r. Qed.

Lemma in_class_cw (fl : flags) (c : char) : in_class fl cw c = isWordChar c.
Proof. simpl. apply orb_false_r. Qed.

Lemma canon_no_flags (c : char) : canon no_flags c = c.
Proof. reflexivity. Qed.

(** A repetition before the end of the pattern always succeeds. *)
Lemma star_kend (fl : flags) (cl : cclass) (p : option char) (s : jsstring) :
  isSome (star fl cl kend p s) = true.
Proof.
  revert p. induction s as [|c s IH]; intros p; simpl; auto.
  destruct (in_class fl cl c); auto.
  now rewrite isSome_orElse, IH.
Qed.

(** A literal, without [i]: the continuation runs on what follows the
    prefix. *)
Lemma lit_stripPrefix (l : jsstring) (k : K) (p : option char) (s : jsstring) :
  (forall q q' r, k q r = k q' r) ->
  lit no_flags l k p s =
  match stripPrefix l s with
  | Some rest => k None rest
  | None => None
  end.
Proof.
  intros Hk. revert p s. induction l as [|a l IH]; intros p s; simpl.
  - apply Hk.
  - destruct s as [|c s]; auto.
    rewrite !canon_no_flags. destruct (N.eqb a c); auto.
Qed.

(** A literal found in place. *)
Lemma lit_here (fl : flags) (l : jsstring) (k : K) (p : option char) (b : jsstring) :
  exists q, lit fl l k p (l ++ b) = k q b.
Proof.
  revert p. induction l as [|a l IH]; intros p; simpl.
  - now exists p.
  - rewrite N.eqb_refl. apply IH.
Qed.

(** A match that starts further right is found by the search. *)
Lemma search_later (fl : flags) (r : regex) (a s : jsstring) :
  (forall p, isSome (m fl r kend p s) = true) ->
  forall p, isSome (search fl r p (a ++ s)) = true.
Proof.
  intros H. induction a as [|c a IH]; intros p; simpl.
  - specialize (H p). destruct s; simpl in *; destruct (m fl r kend p _); auto; discriminate.
  - destruct (m fl r kend p (c :: a ++ s)); auto.
Qed.

(** Without [m], a pattern that opens with [^] matches at the start only. *)
Lemma search_bol_later (r : regex) (c : char) (s : jsstring) :
  search no_flags (Bol ;; r) (Some c) s = None.
Proof.
  revert c. induction s as [|d s IH]; intros c; simpl; auto.
Qed.

Lemma test_bol (r : regex) (s : jsstring) :
  test no_flags (Bol ;; r) s = isSome (m no_flags r kend None s).
Proof.
  unfold test. destruct s as [|c s]; simpl.
  - destruct (m no_flags r kend None []); reflexivity.
  - destruct (m no_flags r kend None (c :: s)); auto.
    now rewrite search_bol_later.
Qed.

(* ================================================================== *)
(** ** The two patterns of the short-input rule *)
(* ================================================================== *)

(** [\s+\w+] (here the tail [\s*\w+] of it): the white space is skipped and
    a word character must follow. *)
Lemma spaces_then_word (p : option char) (s : jsstring) :
  isSome (star no_flags cs (m no_flags w_plus kend) p s) =
  match dropWhile isSpace s with
  | d :: _ => isWordChar d
  | [] => false
  end.
Proof.
  revert p. induction s as [|c s IH]; intros p.
  - reflexivity.
  - cbn [star dropWhile]. rewrite in_class_cs.
    destruct (isSpace c) eqn:Ec.
    + rewrite isSome_orElse, IH.
      cbn [m w_plus]. rewrite in_class_cw, (space_not_word _ Ec).
      apply orb_false_r.
    + cbn [m w_plus]. rewrite in_class_cw.
      destruct (isWordChar c); auto. apply star_kend.
Qed.

Lemma identifier_follows (p : option char) (s : jsstring) :
  isSome (m no_flags (s_plus ;; w_plus) kend p s) = identifierFollows s.
Proof.
  destruct s as [|c s]; auto.
  cbn [m s_plus identifierFollows]. rewrite in_class_cs.
  destruct (isSpace c); auto. apply spaces_then_word.
Qed.

Lemma keyword_then_identifier (kw : string) (p : option char) (s : jsstring) :
  isSome (m no_flags (L kw) (m no_flags (s_plus ;; w_plus) kend) p s) =
  match stripPrefix (u kw) s with
  | Some rest => identifierFollows rest
  | None => false
  end.
Proof.
  cbn [m L]. rewrite lit_stripPrefix.
  - destruct (stripPrefix (u kw) s) as [rest|]; auto.
    apply (identifier_follows None rest).
  - intros q q' r. destruct r; reflexivity.
Qed.

(** /^(def|function|class|public|private)\s+\w+/ says what the words
    "begins with a declaration keyword followed by an identifier" say. *)
Lemma short_decl_spec (text : jsstring) :
  test no_flags re_short_decl text = beginsWithDeclaration text.
Proof.
  unfold re_short_decl. rewrite test_bol.
  cbn [m]. rewrite !isSome_orElse.
  change (fun (prev : option char) (rest : jsstring) =>
            m no_flags (s_plus ;; w_plus) kend prev rest)
    with (m no_flags (s_plus ;; w_plus) kend).
  rewrite !keyword_then_identifier.
  unfold beginsWithDeclaration, declarationKeywords. cbn [existsb].
  now rewrite orb_false_r.
Qed.

(** [\s*$] without [m]: only white space is left. *)
Lemma spaces_to_end (p : option char) (s : jsstring) :
  isSome (star no_flags cs (m no_flags Eol kend) p s) = forallb isSpace s.
Proof.
  revert p. induction s as [|c s IH]; intros p.
  - reflexivity.
  - cbn [star forallb]. rewrite in_class_cs.
    destruct (isSpace c); auto.
    rewrite isSome_orElse, IH. cbn. apply orb_false_r.
Qed.

Lemma in_class_symbols (c : char) :
  in_class no_flags (OneOf [chr "{"; chr "}"; chr ";"]) c = isSymbol c.
Proof.
  unfold isSymbol. cbn [in_class existsb item_matches chr].
  rewrite !canon_no_flags, orb_false_r.
  rewrite (N.eqb_sym (N_of_ascii "{")), (N.eqb_sym (N_of_ascii "}")),
    (N.eqb_sym (N_of_ascii ";")).
  now rewrite orb_assoc.
Qed.

Lemma short_term_here (p : option char) (s : jsstring) :
  isSome (m no_flags re_short_term kend p s) =
  match s with
  | c :: rest => isSymbol c && forallb isSpace rest
  | [] => false
  end.
Proof.
  destruct s as [|c s]; auto.
  unfold re_short_term, set. cbn [m s_star]. rewrite in_class_symbols.
  destruct (isSymbol c); auto. apply spaces_to_end.
Qed.

Lemma lastChar_cons (d : char) (s : jsstring) : exists c, lastChar (d :: s) = Some c.
Proof.
  revert d. induction s as [|e s IH]; intros d.
  - now exists d.
  - destruct (IH e) as [c Hc]. exists c. exact Hc.
Qed.

Lemma forallb_lastChar (s : jsstring) :
  forallb isSpace s = true ->
  match lastChar s with Some c => isSpace c = true | None => True end.
Proof.
  induction s as [|c s IH]; [simpl; auto|].
  intros H. cbn [forallb] in H. apply andb_true_iff in H. destruct H as [Hc Hs].
  cbn [lastChar]. destruct s as [|d s]; [exact Hc|exact (IH Hs)].
Qed.

(** /[{};]\s*$/ on a text with no white space at its end says what the
    words "ends with a terminator character" say. *)
Lemma short_term_search (s : jsstring) (p : option char) :
  match lastChar s with Some c => isSpace c = false | None => True end ->
  isSome (search no_flags re_short_term p s) = endsWithTerminator s.
Proof.
  unfold endsWithTerminator.
  revert p. induction s as [|c s IH]; intros p Hlast.
  - reflexivity.
  - cbn [search].
    pose proof (short_term_here p (c :: s)) as Hm.
    destruct s as [|d s].
    + cbn [forallb lastChar] in *. rewrite andb_true_r in Hm.
      destruct (m no_flags re_short_term kend p [c]); cbn in Hm; rewrite <- Hm; reflexivity.
    + assert (Hsp : forallb isSpace (d :: s) = false).
      { destruct (forallb isSpace (d :: s)) eqn:E; auto.
        apply forallb_lastChar in E.
        change (lastChar (c :: d :: s)) with (lastChar (d :: s)) in Hlast.
        destruct (lastChar_cons d s) as [e He]. rewrite He in *. congruence. }
      rewrite Hsp, andb_false_r in Hm.
      destruct (m no_flags re_short_term kend p (c :: d :: s)); [discriminate|].
      rewrite IH; auto.
Qed.

Lemma short_term_spec (code : jsstring) :
  test no_flags re_short_term (trim code) = endsWithTerminator (trim code).
Proof.
  unfold test. apply short_term_search.
  pose proof (trim_last code) as H. destruct (lastChar (trim code)); auto.
Qed.

(** C6: short input.  With fewer than two non-empty lines the scorer answers
    [false] (code) exactly when the trimmed text begins with one of the
    keywords def, function, class, public, private followed by white space
    and an identifier, or ends with one of the terminators [{], [}], [;];
    otherwise it answers [true] (prose).  The empty string is prose, and the
    classifier returns the Plain Text descriptor for it. *)
Theorem C6_short_input (code : jsstring) :
  length (nonEmptyLines code) < 2 ->
  isPlainText code
  = negb (beginsWithDeclaration (trim code) || endsWithTerminator (trim code))
  /\ isPlainText [] = true
  /\ detectLanguage [] = PlainText.
Proof.
  intros H. split; [|split; reflexivity].
  unfold isPlainText.
  apply Nat.ltb_lt in H. rewrite H.
  rewrite short_decl_spec, short_term_spec.
  destruct (beginsWithDeclaration (trim code)); reflexivity.
Qed.

Lemma C6_short_input_witness :
  length (nonEmptyLines (u "class Foo")) < 2 /\
  beginsWithDeclaration (trim (u "class Foo")) = true /\
  isPlainText (u "class Foo") = false.
Proof.
  split; [vm_compute; lia|].
  split; [vm_compute; reflexivity|].
  destruct (C6_short_input (u "class Foo")) as [H _]; [vm_compute; lia|].
  rewrite H. vm_compute. reflexivity.
Defined.

(* ================================================================== *)
(** ** Precedence in the table *)
(* ================================================================== *)

Lemma alt_left (fl : flags) (r1 r2 : regex) (k : K) (p : option char) (s : jsstring) :
  isSome (m fl r1 k p s) = true -> isSome (m fl (r1 <|> r2) k p s) = true.
Proof. intros H. cbn [m]. now rewrite isSome_orElse, H. Qed.

Lemma alt_right (fl : flags) (r1 r2 : regex) (k : K) (p : option char) (s : jsstring) :
  isSome (m fl r2 k p s) = true -> isSome (m fl (r1 <|> r2) k p s) = true.
Proof. intros H. cbn [m]. rewrite isSome_orElse, H. apply orb_true_r. Qed.

(** A text that holds [std::] matches the C++ pattern. *)
Lemma cpp_matches_std (code : jsstring) :
  contains tok_std code -> test no_flags re_cpp code = true.
Proof.
  intros [a [b ->]]. unfold test.
  assert (H : forall p, isSome (m no_flags re_cpp kend p (tok_std ++ b)) = true).
  { intros p. unfold re_cpp. apply alt_right, alt_left.
    destruct (lit_here no_flags tok_std kend p b) as [q Hq].
    unfold L, tok_std in *. cbn [m]. now rewrite Hq. }
  pose proof (search_later no_flags re_cpp a (tok_std ++ b) H None) as Hs.
  destruct (search no_flags re_cpp None (a ++ tok_std ++ b)); auto.
Qed.

(** C2, as the program has it: precedence.  For a text the scorer does not
    call prose, the table is walked in the order Java, C++, C, TypeScript,
    Go, Rust, Python, JavaScript, Ruby, PHP; the answer is the descriptor of
    the first rule that matches and Plain Text when none does.  A text that
    holds both [std::] and [printf(] is never answered with C: the answer is
    C++, unless the Java pattern, which comes first, matches too, and then
    it is Java. *)
Theorem C2_first_match_in_order (code : jsstring) :
  isPlainText code = false ->
  map (fun p => name (lang p)) LANGUAGE_PATTERNS
  = ["Java"; "C++"; "C"; "TypeScript"; "Go"; "Rust"; "Python"; "JavaScript"; "Ruby"; "PHP"]
  /\ (forall pre p post,
         LANGUAGE_PATTERNS = pre ++ p :: post ->
         (forall q, In q pre -> testRule code q = false) ->
         testRule code p = true ->
         detectLanguage code = lang p)
  /\ ((forall q, In q LANGUAGE_PATTERNS -> testRule code q = false) ->
      detectLanguage code = PlainText)
  /\ (contains tok_std code -> contains tok_printf code ->
      detectLanguage code = if test no_flags re_java code then Java else Cpp).
Proof.
  intros Hnp. unfold detectLanguage, detectLanguageWith. rewrite Hnp.
  split; [reflexivity|]. split; [|split].
  - intros pre p post -> Hpre Hp. now apply firstMatch_first.
  - apply firstMatch_none.
  - intros Hstd _. cbn [firstMatch LANGUAGE_PATTERNS]. unfold testRule.
    cbn [pattern fst snd lang]. now rewrite (cpp_matches_std Hstd).
Qed.

Lemma C2_first_match_in_order_witness :
  isPlainText cpp_line = false /\
  contains tok_std cpp_line /\ contains tok_printf cpp_line /\
  test no_flags re_c cpp_line = true /\
  detectLanguage cpp_line = Cpp.
Proof.
  assert (Hstd : contains tok_std cpp_line).
  { exists (u "int main(){ "), (u "cout << 1; printf(1); }"). reflexivity. }
  assert (Hpr : contains tok_printf cpp_line).
  { exists (u "int main(){ std::cout << 1; "), (u "1); }"). reflexivity. }
  split; [vm_compute; reflexivity|]. split; [exact Hstd|]. split; [exact Hpr|].
  split; [vm_compute; reflexivity|].
  destruct (C2_first_match_in_order cpp_line) as [_ [_ [_ H]]]; [vm_compute; reflexivity|].
  rewrite (H Hstd Hpr). vm_compute. reflexivity.
Defined.

(** C2, as the specification words it, fails: a text that is not prose and
    holds both [std::] and [printf(] can be answered with Java. *)
Lemma C2_counterexample :
  ~ (forall code : jsstring,
        isPlainText code = false ->
        contains tok_std code -> contains tok_printf code ->
        detectLanguage code = Cpp).
Proof.
  intros H. specialize (H java_line).
  assert (E : detectLanguage java_line = Cpp).
  { apply H.
    - vm_compute; reflexivity.
    - exists (u "public static void f() { "), (u "x; printf(1); }"). reflexivity.
    - exists (u "public static void f() { std::x; "), (u "1); }"). reflexivity. }
  vm_compute in E. discriminate E.
Qed.

(* ================================================================== *)
(** ** The verdict and the descriptor *)
(* ================================================================== *)

(** C5, as the program has it.  A prose verdict always comes with the Plain
    Text descriptor; the Plain Text descriptor comes with a prose verdict or
    with a text that no pattern of the table matches. *)
Theorem C5_plain_text_descriptor (code : jsstring) :
  (isPlainText code = true -> detectLanguage code = PlainText)
  /\ (detectLanguage code = PlainText <->
      isPlainText code = true \/
      forall p, In p LANGUAGE_PATTERNS -> testRule code p = false).
Proof.
  unfold detectLanguage, detectLanguageWith.
  destruct (isPlainText code) eqn:E.
  - split; auto. split; auto.
  - split; [discriminate|]. split.
    + intros H. right.
      destruct (firstMatch_cases code LANGUAGE_PATTERNS) as [[_ Hn]|[p [Hin [_ Hp]]]]; auto.
      rewrite H in Hp. symmetry in Hp. now apply registry_langs_not_plain in Hp.
    + intros [H|H]; [discriminate|]. now apply firstMatch_none.
Qed.

(** C5, as the specification words it, fails: the scorer calls [x;] code,
    no pattern matches it, and the descriptor is Plain Text all the same. *)
Lemma C5_counterexample :
  ~ (forall code : jsstring,
        isPlainText code = true <-> detectLanguage code = PlainText).
Proof.
  intros H. destruct (H bare_statement) as [_ H2].
  assert (E : isPlainText bare_statement = true) by (apply H2; vm_compute; reflexivity).
  vm_compute in E. discriminate E.
Qed.

(* ================================================================== *)
(** ** Totality *)
(* ================================================================== *)

Lemma isPlainText_spaces (code : jsstring) :
  forallb isSpace code = true -> isPlainText code = true.
Proof.
  intros H. unfold isPlainText, nonEmptyLines. rewrite (trim_spaces _ H). reflexivity.
Qed.

(** C7: totality.  The classifier is a function defined on every string:
    each operation of the embedding is total (the one partial step of the
    source, the length of a missing match, goes through the optional chain
    [optLength]), so every call returns a descriptor.  That descriptor is
    the Plain Text sentinel or the one of a rule that matches; the empty
    string and every text of white space only get the sentinel. *)
Theorem C7_total (code : jsstring) :
  (exists d : LanguageInfo,
      detectLanguage code = d /\
      (d = PlainText \/
       exists p, In p LANGUAGE_PATTERNS /\ testRule code p = true /\ d = lang p))
  /\ detectLanguage [] = PlainText
  /\ (forallb isSpace code = true -> detectLanguage code = PlainText).
Proof.
  split; [|split].
  - exists (detectLanguage code). split; auto.
    unfold detectLanguage, detectLanguageWith.
    destruct (isPlainText code); auto.
    destruct (firstMatch_cases code LANGUAGE_PATTERNS) as [[H _]|H]; auto.
  - reflexivity.
  - intros H. unfold detectLanguage, detectLanguageWith.
    now rewrite (isPlainText_spaces _ H).
Qed.

(* ================================================================== *)
(** ** The multi-line rule *)
(* ================================================================== *)

Lemma isPlainText_multiline (code : jsstring) (p c : nat) :
  2 <= length (nonEmptyLines code) ->
  countLines (nonEmptyLines code) = (p, c) ->
  isPlainText code =
  if Nat.ltb 0 (p + c) then ratio_gt p (p + c) (4 # 10)%Q
  else Nat.ltb 3 (length (nonEmptyLines code))
       && js_lt (optLength (match_global flag_g re_symbols code)) 3.
Proof.
  intros Hlen Hcount. unfold isPlainText.
  apply Nat.ltb_ge in Hlen. rewrite Hlen, Hcount. reflexivity.
Qed.

(** The exact comparison, on the integers. *)
Lemma ratio_gt_spec (p t : nat) :
  0 < t -> ratio_gt p t (4 # 10)%Q = Nat.ltb (2 * t) (5 * p).
Proof.
  intros Ht. destruct t as [|t']; [lia|].
  unfold ratio_gt, Qle_bool, Qdiv, Qmult, Qinv, inject_Z.
  cbn [Qnum Qden Z.of_nat]. cbn [Qnum Qden].
  destruct (Nat.ltb_spec (2 * S t') (5 * p)) as [H|H];
    destruct (Z.leb_spec (Z.of_nat p * 1 * 10)
                (4 * Z.pos (1 * Pos.of_succ_nat t'))) as [H'|H'];
    try reflexivity; exfalso; lia.
Qed.

(** On all counts with [0 < p + c <= 1000] the binary64 comparison of the
    program and the exact comparison of the model give the same answer. *)
Lemma ratio_binary64_agrees : agree_rows 1001 (toFloat 0) (Z.of_nat 0) = true.
Proof. vm_compute. reflexivity. Qed.

(** The literal is the quotient of the counters 2 and 5. *)
Example literal_is_two_fifths :
  PrimFloat.eqb literal_0_4 (PrimFloat.div (toFloat 2) (toFloat 5)) = true.
Proof. vm_compute. reflexivity. Qed.

Lemma agree_row_spec (fuel p c : nat) :
  agree_row fuel (toFloat p) (toFloat c) (Z.of_nat p) (Z.of_nat c) = true ->
  forall k, k < fuel -> 0 < p + (c + k) ->
  ratio_gt_binary64 p (c + k) = Nat.ltb (2 * (p + (c + k))) (5 * p).
Proof.
  revert c. induction fuel as [|fuel IH]; intros c H k Hk Hpos; [lia|].
  cbn [agree_row] in H. apply andb_true_iff in H. destruct H as [H1 H2].
  destruct k as [|k].
  - rewrite Nat.add_0_r in *. apply orb_true_iff in H1. destruct H1 as [H1|H1].
    + apply Z.eqb_eq in H1. lia.
    + apply Bool.eqb_prop in H1. unfold ratio_gt_binary64. rewrite H1.
      destruct (Z.ltb_spec (2 * (Z.of_nat p + Z.of_nat c)) (5 * Z.of_nat p));
        destruct (Nat.ltb_spec (2 * (p + c)) (5 * p)); auto; lia.
  - replace (c + S k) with (S c + k) in * by lia.
    apply IH; auto; [|lia].
    cbn [toFloat]. now rewrite Nat2Z.inj_succ, <- Z.add_1_r.
Qed.

Lemma agree_rows_spec (fuel p : nat) :
  agree_rows fuel (toFloat p) (Z.of_nat p) = true ->
  forall j c, j + c < fuel -> 0 < p + j + c ->
  ratio_gt_binary64 (p + j) c = Nat.ltb (2 * (p + j + c)) (5 * (p + j)).
Proof.
  revert p. induction fuel as [|fuel IH]; intros p H j c Hj Hpos; [lia|].
  cbn [agree_rows] in H. apply andb_true_iff in H. destruct H as [H1 H2].
  destruct j as [|j].
  - rewrite Nat.add_0_r in *.
    apply (@agree_row_spec (S fuel) p 0 H1 c); simpl; lia.
  - replace (p + S j) with (S p + j) in * by lia.
    apply IH; auto; [|lia].
    cbn [toFloat]. now rewrite Nat2Z.inj_succ, <- Z.add_1_r.
Qed.

(** For up to 1000 counted lines the program's binary64 comparison is the
    exact one. *)
Lemma ratio_binary64_bounded (p c : nat) :
  0 < p + c -> p + c <= 1000 ->
  ratio_gt_binary64 p c = ratio_gt p (p + c) (4 # 10)%Q.
Proof.
  intros Hpos Hle. rewrite (ratio_gt_spec p Hpos).
  apply (@agree_rows_spec 1001 0 ratio_binary64_agrees p c); simpl; lia.
Qed.

(** C3: ratio boundary.  With at least two non-empty lines of which
    [p] count as prose and [c] as code, [p + c > 0], the scorer answers
    [true] exactly when [p / (p + c)] is greater than 0.4: a ratio of exactly
    0.4 (5p = 2(p+c)) is not prose, a greater one is.  The quotient is the
    exact one; up to 1000 counted lines the answer is also shown equal to
    the binary64 comparison the program computes. *)
Theorem C3_ratio_threshold (code : jsstring) (p c : nat) :
  2 <= length (nonEmptyLines code) ->
  countLines (nonEmptyLines code) = (p, c) ->
  0 < p + c ->
  (isPlainText code = true <->
   (4 # 10 < inject_Z (Z.of_nat p) / inject_Z (Z.of_nat (p + c)))%Q)
  /\ (5 * p = 2 * (p + c) -> isPlainText code = false)
  /\ (2 * (p + c) < 5 * p -> isPlainText code = true)
  /\ (p + c <= 1000 -> isPlainText code = ratio_gt_binary64 p c).
Proof.
  intros Hlen Hcount Htot.
  rewrite (isPlainText_multiline code Hlen Hcount).
  assert (E : Nat.ltb 0 (p + c) = true) by now apply Nat.ltb_lt.
  rewrite E. split; [|split; [|split]];
    [| | |intros Hb; symmetry; now apply ratio_binary64_bounded].
  - unfold ratio_gt. rewrite negb_true_iff. split.
    + intros H. apply Qnot_le_lt. intros Hle. apply Qle_bool_iff in Hle. congruence.
    + intros H. destruct (Qle_bool _ _) eqn:Eq; auto.
      apply Qle_bool_iff in Eq. now apply Qlt_not_le in H.
  - intros H. rewrite (ratio_gt_spec p Htot). apply Nat.ltb_ge. lia.
  - intros H. rewrite (ratio_gt_spec p Htot). now apply Nat.ltb_lt.
Qed.

Lemma C3_ratio_threshold_witness :
  2 <= length (nonEmptyLines two_of_five) /\
  countLines (nonEmptyLines two_of_five) = (2, 3) /\
  isPlainText two_of_five = false.
Proof.
  assert (Hlen : 2 <= length (nonEmptyLines two_of_five)) by (vm_compute; lia).
  assert (Hc : countLines (nonEmptyLines two_of_five) = (2, 3)) by (vm_compute; reflexivity).
  split; [exact Hlen|]. split; [exact Hc|].
  destruct (@C3_ratio_threshold two_of_five 2 3 Hlen Hc) as [_ [H _]]; [lia|].
  apply H. reflexivity.
Defined.

(** Three prose lines of five: a ratio above the threshold. *)
Example three_of_five_is_prose :
  countLines (nonEmptyLines three_of_five) = (3, 2) /\ isPlainText three_of_five = true.
Proof. vm_compute. split; reflexivity. Qed.

(* ================================================================== *)
(** ** The fallback on neutral lines *)
(* ================================================================== *)

Lemma in_class_symbols_g (c : char) :
  in_class flag_g (OneOf [chr "{"; chr "}"; chr ";"]) c = isSymbol c.
Proof.
  unfold isSymbol. cbn [in_class existsb item_matches chr].
  change (canon flag_g) with (fun x : char => x). cbv beta.
  rewrite orb_false_r.
  rewrite (N.eqb_sym (N_of_ascii "{")), (N.eqb_sym (N_of_ascii "}")),
    (N.eqb_sym (N_of_ascii ";")).
  now rewrite orb_assoc.
Qed.

(** The matches of /[{};]/g are the structural symbols of the text, one by
    one. *)
Lemma match_all_symbols (s : jsstring) (p : option char) :
  match_all flag_g re_symbols p s 0 = map (fun c => [c]) (filter isSymbol s).
Proof.
  revert p. induction s as [|c s IH]; intros p.
  - reflexivity.
  - unfold re_symbols, set in *. cbn [match_all m filter].
    rewrite in_class_symbols_g. destruct (isSymbol c).
    + unfold kend. cbn [map].
      replace (length (c :: s) - length s) with 1 by (cbn [length]; lia).
      cbn [firstn Nat.sub]. now rewrite IH.
    + apply IH.
Qed.

(** The comparison of the fallback: true for one or two symbols, false for
    none, where the match is [null], and for three or more. *)
Lemma symbols_comparison (code : jsstring) :
  js_lt (optLength (match_global flag_g re_symbols code)) 3 =
  Nat.leb 1 (symbolCount code) && Nat.ltb (symbolCount code) 3.
Proof.
  unfold match_global, symbolCount. rewrite match_all_symbols.
  destruct (filter isSymbol code) as [|c l]; [reflexivity|].
  cbn [map optLength js_lt length]. now rewrite length_map.
Qed.

Lemma neutral_fallback (code : jsstring) :
  2 <= length (nonEmptyLines code) ->
  countLines (nonEmptyLines code) = (0, 0) ->
  isPlainText code =
  Nat.ltb 3 (length (nonEmptyLines code))
  && (Nat.leb 1 (symbolCount code) && Nat.ltb (symbolCount code) 3).
Proof.
  intros Hlen Hcount.
  rewrite (isPlainText_multiline code Hlen Hcount). cbn [Nat.add Nat.ltb Nat.leb].
  now rewrite symbols_comparison.
Qed.

Lemma no_symbols (code : jsstring) :
  (forall c, In c code -> isSymbol c = false) -> filter isSymbol code = [].
Proof.
  induction code as [|c code IH]; intros H; simpl; auto.
  rewrite (H c (or_introl eq_refl)). apply IH. intros d Hd. apply H. now right.
Qed.

(** C9: no symbol at all.  With at least two non-empty lines, all of them
    neutral, and not one [{], [}] or [;] in the text, the scorer answers
    [false], however many lines there are: the match is [null], its optional
    length is [undefined], and [undefined < 3] is false. *)
Theorem C9_no_symbol_is_code (code : jsstring) :
  2 <= length (nonEmptyLines code) ->
  countLines (nonEmptyLines code) = (0, 0) ->
  (forall c, In c code -> isSymbol c = false) ->
  isPlainText code = false
  /\ match_global flag_g re_symbols code = None
  /\ js_lt (optLength None) 3 = false.
Proof.
  intros Hlen Hcount Hsym.
  pose proof (no_symbols code Hsym) as Hf.
  split; [|split].
  - rewrite (neutral_fallback code Hlen Hcount). unfold symbolCount. rewrite Hf.
    apply andb_false_r.
  - unfold match_global. now rewrite match_all_symbols, Hf.
  - reflexivity.
Qed.

Lemma C9_no_symbol_is_code_witness :
  3 < length (nonEmptyLines five_numbers) /\
  countLines (nonEmptyLines five_numbers) = (0, 0) /\
  isPlainText five_numbers = false.
Proof.
  split; [vm_compute; lia|]. split; [vm_compute; reflexivity|].
  apply (C9_no_symbol_is_code five_numbers).
  - vm_compute; lia.
  - vm_compute; reflexivity.
  - intros c Hc. vm_compute in Hc.
    repeat (destruct Hc as [<-|Hc]; [reflexivity|]). destruct Hc.
Defined.

(** C4 at the input "1\n2\n3\n4": four non-empty lines, all neutral, no
    structural symbol, so more than three lines and fewer than three
    symbols; the scorer answers [false].  One or two symbols among such
    lines give [true]. *)
Theorem C4_zero_symbols :
  length (nonEmptyLines four_numbers) = 4
  /\ countLines (nonEmptyLines four_numbers) = (0, 0)
  /\ symbolCount four_numbers = 0
  /\ isPlainText four_numbers = false
  /\ isPlainText four_with_symbol = true.
Proof. vm_compute. repeat split; reflexivity. Qed.

(* ================================================================== *)
(** ** Determinism: the table keeps no state *)
(* ================================================================== *)

(** A pattern without [g] and [y] is tested from index 0 and its object is
    left as it was. *)
Lemma RegExp_test_untracked (R : RegExpObject) (s : jsstring) :
  global (flagsOf R) = false -> sticky (flagsOf R) = false ->
  RegExp_test R s = (test (flagsOf R) (source R) s, R).
Proof.
  intros Hg Hy. unfold RegExp_test, test. rewrite Hg, Hy.
  cbn [orb Nat.ltb Nat.leb skipn].
  destruct (search (flagsOf R) (source R) None s); reflexivity.
Qed.

(** With [g], the same object answers differently from one call to the
    next: the state the model tracks is real. *)
Example global_pattern_keeps_state :
  let (b1, R1) := RegExp_test globalObject (u "a") in
  let (b2, R2) := RegExp_test R1 (u "a") in
  b1 = true /\ lastIndex R1 = 1 /\ b2 = false /\ lastIndex R2 = 0.
Proof. vm_compute. repeat split; reflexivity. Qed.

Lemma firstMatchObjects_pure (table : list RuleObject) (code : jsstring) :
  Forall untracked table ->
  firstMatchObjects table code = (firstMatch (map ruleOf table) code, table).
Proof.
  induction 1 as [|o table [Hg Hy] _ IH]; [reflexivity|].
  cbn [firstMatchObjects map firstMatch].
  rewrite (RegExp_test_untracked _ code Hg Hy), IH.
  unfold testRule. cbn [ruleOf pattern fst snd lang].
  destruct o as [R l]. cbn [patternObject langOf].
  destruct (test (flagsOf R) (source R) code); reflexivity.
Qed.

Lemma registry_untracked (table : list RuleObject) :
  map ruleOf table = LANGUAGE_PATTERNS -> Forall untracked table.
Proof.
  intros H. apply Forall_forall. intros o Ho.
  apply (in_map ruleOf) in Ho. rewrite H in Ho.
  destruct o as [[fl r i] l]. unfold untracked. cbn in *.
  repeat (destruct Ho as [Ho|Ho]; [inversion Ho; subst; split; reflexivity|]).
  destruct Ho.
Qed.

Lemma detectLanguageObjects_pure (table : list RuleObject) (code : jsstring) :
  map ruleOf table = LANGUAGE_PATTERNS ->
  detectLanguageObjects table code = (detectLanguage code, table).
Proof.
  intros H. unfold detectLanguageObjects, detectLanguage, detectLanguageWith.
  destruct (isPlainText code); auto.
  rewrite (firstMatchObjects_pure code (registry_untracked table H)). now rewrite H.
Qed.

(** C8: determinism.  Whatever the [lastIndex] fields of the table's
    RegExp objects hold, a call answers [detectLanguage code] and leaves the
    table as it found it.  So in a session of calls every answer depends on
    the text of its own call only, and two calls on one text return the same
    name, editor mode, icon and colour. *)
Theorem C8_deterministic (table : list RuleObject) (inputs : list jsstring) :
  map ruleOf table = LANGUAGE_PATTERNS ->
  session table inputs = (map detectLanguage inputs, table)
  /\ forall t : jsstring,
      let (d1, table1) := detectLanguageObjects table t in
      let (d2, table2) := detectLanguageObjects table1 t in
      d1 = d2 /\ name d1 = name d2 /\ monacoId d1 = monacoId d2
      /\ icon d1 = icon d2 /\ color d1 = color d2 /\ table2 = table.
Proof.
  intros H. split.
  - induction inputs as [|t inputs IH]; [reflexivity|].
    cbn [session map]. now rewrite (detectLanguageObjects_pure table t H), IH.
  - intros t. rewrite (detectLanguageObjects_pure table t H).
    rewrite (detectLanguageObjects_pure table t H). repeat split; reflexivity.
Qed.

Lemma C8_deterministic_witness :
  map ruleOf usedTable = LANGUAGE_PATTERNS /\
  fst (session usedTable [cpp_line; java_sentence; cpp_line]) = [Cpp; PlainText; Cpp].
Proof.
  assert (H : map ruleOf usedTable = LANGUAGE_PATTERNS) by reflexivity.
  split; [exact H|].
  destruct (C8_deterministic usedTable [cpp_line; java_sentence; cpp_line] H) as [E _].
  rewrite E. vm_compute. reflexivity.
Defined.

(* ================================================================== *)
(** ** More on strings: trimming and splitting *)
(* ================================================================== *)

Lemma dropWhile_nil_iff (p : char -> bool) (s : jsstring) :
  dropWhile p s = [] <-> forallb p s = true.
Proof.
  split; [|apply dropWhile_all].
  induction s as [|c s IH]; simpl; auto.
  destruct (p c); [exact IH|discriminate].
Qed.

Lemma dropWhile_app (p : char -> bool) (s b : jsstring) :
  dropWhile p (s ++ b) = if forallb p s then dropWhile p b else dropWhile p s ++ b.
Proof.
  induction s as [|c s IH]; simpl; auto.
  destruct (p c); simpl; auto.
Qed.

Lemma forallb_rev (p : char -> bool) (s : jsstring) :
  forallb p (rev s) = forallb p s.
Proof.
  induction s as [|c s IH]; simpl; auto.
  rewrite forallb_app, IH. simpl. rewrite andb_true_r. apply andb_comm.
Qed.

(** White space around a text does not survive [trim]. *)
Lemma trim_padding (a code b : jsstring) :
  forallb isSpace a = true -> forallb isSpace b = true ->
  trim (a ++ code ++ b) = trim code.
Proof.
  intros Ha Hb. unfold trim, trimStart, trimEnd.
  rewrite (dropWhile_app isSpace a), Ha.
  rewrite (dropWhile_app isSpace code).
  destruct (forallb isSpace code) eqn:Ec.
  - rewrite (dropWhile_all _ _ Hb), (dropWhile_all _ _ Ec). reflexivity.
  - rewrite rev_app_distr, (dropWhile_app isSpace (rev b)), forallb_rev, Hb. reflexivity.
Qed.

Lemma dropWhile_fix (p : char -> bool) (s : jsstring) :
  match s with [] => True | c :: _ => p c = false end -> dropWhile p s = s.
Proof. destruct s as [|c s]; simpl; auto. now intros ->. Qed.

(** A trimmed text is empty or starts with a character that is no space. *)
Lemma trim_head (s : jsstring) :
  match trim s with [] => True | c :: _ => isSpace c = false end.
Proof.
  unfold trim, trimStart, trimEnd.
  pose proof (dropWhile_head isSpace s) as Hd.
  destruct (dropWhile isSpace s) as [|h d]; [exact I|].
  cbn [rev]. rewrite dropWhile_app.
  destruct (forallb isSpace (rev d)).
  - cbn. now rewrite Hd.
  - rewrite rev_app_distr. exact Hd.
Qed.

Lemma trim_idempotent (s : jsstring) : trim (trim s) = trim s.
Proof.
  unfold trim at 1. unfold trimStart.
  rewrite (dropWhile_fix isSpace (trim s) (trim_head s)).
  unfold trimEnd, trim, trimEnd. rewrite rev_involutive.
  now rewrite (dropWhile_fix isSpace _ (dropWhile_head isSpace _)).
Qed.

Lemma symbolCount_app (a b : jsstring) :
  symbolCount (a ++ b) = symbolCount a + symbolCount b.
Proof. unfold symbolCount. now rewrite filter_app, length_app. Qed.

Lemma symbolCount_spaces (a : jsstring) :
  forallb isSpace a = true -> symbolCount a = 0.
Proof.
  unfold symbolCount. induction a as [|c a IH]; simpl; auto.
  intros H. apply andb_true_iff in H. destruct H as [Hc Ha].
  rewrite (space_not_symbol _ Hc). auto.
Qed.

(** The verdict depends on the text through its trimmed form and its number
    of structural symbols only. *)
Lemma isPlainText_ext (c1 c2 : jsstring) :
  trim c1 = trim c2 -> symbolCount c1 = symbolCount c2 ->
  isPlainText c1 = isPlainText c2.
Proof.
  intros Ht Hs. unfold isPlainText, nonEmptyLines. rewrite Ht.
  rewrite !symbols_comparison, Hs. reflexivity.
Qed.

(** X1: the prose scorer ignores white space (blanks, tabs, line breaks)
    before and after the text. *)
Theorem isPlainText_padding (a code b : jsstring) :
  forallb isSpace a = true -> forallb isSpace b = true ->
  isPlainText (a ++ code ++ b) = isPlainText code
  /\ isPlainText (trim code) = isPlainText code.
Proof.
  intros Ha Hb. split.
  - apply isPlainText_ext.
    + now apply trim_padding.
    + rewrite !symbolCount_app, (symbolCount_spaces _ Ha), (symbolCount_spaces _ Hb). lia.
  - apply isPlainText_ext.
    + apply trim_idempotent.
    + (* the trimmed text is the text without a blank prefix and suffix *)
      unfold trim, trimStart, trimEnd, symbolCount.
      assert (Hdrop : forall s, length (filter isSymbol (dropWhile isSpace s))
                                = length (filter isSymbol s)).
      { induction s as [|c s IH]; simpl; auto.
        destruct (isSpace c) eqn:Ec; auto.
        now rewrite (space_not_symbol _ Ec). }
      assert (Hrev : forall s, length (filter isSymbol (rev s))
                               = length (filter isSymbol s)).
      { induction s as [|c s IH]; simpl; auto.
        rewrite filter_app, length_app, IH. simpl.
        destruct (isSymbol c); simpl; lia. }
      now rewrite Hrev, Hdrop, Hrev, Hdrop.
Qed.

Lemma isPlainText_padding_witness :
  isPlainText (u "  " ++ two_of_five ++ nl) = isPlainText two_of_five.
Proof.
  apply (isPlainText_padding (u "  ") two_of_five nl); reflexivity.
Defined.

(* ================================================================== *)
(** ** The loop over the lines *)
(* ================================================================== *)

Lemma countLine_step (p c : nat) (line : jsstring) :
  exists dp dc, countLine (p, c) line = (p + dp, c + dc) /\ dp + dc <= 1
                /\ countLine (0, 0) line = (dp, dc).
Proof.
  unfold countLine.
  destruct (isProse (trim line) && negb (isCode (trim line))).
  - exists 1, 0. split; [f_equal; lia|split; [lia|reflexivity]].
  - destruct (isCode (trim line) && negb (isProse (trim line))).
    + exists 0, 1. split; [f_equal; lia|split; [lia|reflexivity]].
    + exists 0, 0. split; [f_equal; lia|split; [lia|reflexivity]].
Qed.

Lemma fold_countLine (lines : list jsstring) (p c : nat) :
  fold_left countLine lines (p, c)
  = (p + fst (countLines lines), c + snd (countLines lines))
  /\ fst (countLines lines) + snd (countLines lines) <= length lines.
Proof.
  unfold countLines. revert p c.
  induction lines as [|l lines IH]; intros p c.
  - simpl. split; [f_equal; lia|lia].
  - cbn [fold_left length].
    destruct (countLine_step p c l) as [dp [dc [E [Hle E0]]]].
    rewrite E, E0.
    destruct (IH (p + dp) (c + dc)) as [H1 _].
    destruct (IH dp dc) as [H2 H3].
    rewrite H1, H2. cbn [fst snd]. split; [f_equal; lia|lia].
Qed.

Lemma countLines_app (l1 l2 : list jsstring) :
  countLines (l1 ++ l2)
  = (fst (countLines l1) + fst (countLines l2), snd (countLines l1) + snd (countLines l2)).
Proof.
  unfold countLines at 1. rewrite fold_left_app.
  fold (countLines l1). destruct (countLines l1) as [p c] eqn:E.
  destruct (fold_countLine l2 p c) as [H _]. rewrite H. reflexivity.
Qed.

(** X2: the two counters of the loop.  Each line adds one to at most one
    of them, so together they never exceed the number of lines, and the
    counts of a text in two parts are the sums of the counts of the parts. *)
Theorem countLines_additive (l1 l2 : list jsstring) :
  countLines (l1 ++ l2)
  = (fst (countLines l1) + fst (countLines l2), snd (countLines l1) + snd (countLines l2))
  /\ fst (countLines l1) + snd (countLines l1) <= length l1.
Proof.
  split.
  - apply countLines_app.
  - destruct (fold_countLine l1 0 0) as [_ H]. exact H.
Qed.

(** X3: the fallback as the program computes it.  With at least two
    non-empty lines, all of them neutral, the scorer answers [true] exactly
    when there are more than three such lines and the text holds one or two
    structural symbols: no symbol at all, or three and more, give [false]. *)
Theorem fallback_one_or_two_symbols (code : jsstring) :
  2 <= length (nonEmptyLines code) ->
  countLines (nonEmptyLines code) = (0, 0) ->
  (isPlainText code = true <->
   3 < length (nonEmptyLines code) /\ (symbolCount code = 1 \/ symbolCount code = 2)).
Proof.
  intros Hlen Hcount. rewrite (neutral_fallback code Hlen Hcount).
  rewrite !andb_true_iff, Nat.ltb_lt, Nat.leb_le, Nat.ltb_lt. lia.
Qed.

Lemma fallback_one_or_two_symbols_witness :
  symbolCount four_with_symbol = 1 /\ isPlainText four_with_symbol = true.
Proof.
  split; [reflexivity|].
  apply (fallback_one_or_two_symbols four_with_symbol).
  - vm_compute; lia.
  - vm_compute; reflexivity.
  - vm_compute. split; [lia|left; reflexivity].
Defined.

(* ================================================================== *)
(** ** Lines *)
(* ================================================================== *)

Lemma split_LF_cons (s : jsstring) : exists l ls, split_LF s = l :: ls.
Proof.
  induction s as [|c s [l [ls E]]]; simpl.
  - now exists [], [].
  - destruct (N.eqb c LF).
    + now exists [], (split_LF s).
    + rewrite E. now exists (c :: l), ls.
Qed.

Lemma split_LF_length (s : jsstring) :
  length (split_LF s) = S (count_occ N.eq_dec s LF).
Proof.
  induction s as [|c s IH]; [reflexivity|].
  cbn [split_LF count_occ].
  destruct (N.eqb_spec c LF) as [->|Hne].
  - destruct (N.eq_dec LF LF); [|congruence]. cbn [length]. now rewrite IH.
  - destruct (N.eq_dec c LF); [congruence|].
    destruct (split_LF_cons s) as [l [ls E]]. rewrite E in *. exact IH.
Qed.

Lemma count_occ_dropWhile (p : char -> bool) (s : jsstring) :
  count_occ N.eq_dec (dropWhile p s) LF <= count_occ N.eq_dec s LF.
Proof.
  induction s as [|c s IH]; simpl; auto.
  destruct (p c); simpl; destruct (N.eq_dec c LF); lia.
Qed.

Lemma count_LF_trim (s : jsstring) :
  count_occ N.eq_dec (trim s) LF <= count_occ N.eq_dec s LF.
Proof.
  unfold trim, trimEnd, trimStart. rewrite count_occ_rev.
  eapply Nat.le_trans; [apply count_occ_dropWhile|].
  rewrite count_occ_rev. apply count_occ_dropWhile.
Qed.

(** X4: the line count of the toolbar is one more than the number of
    line feeds, so it is never 0 (the empty text shows 1 line), it is at
    most one more than the character count, and the prose scorer never sees
    more lines than the toolbar shows. *)
Theorem lineCount_spec (code : jsstring) :
  lineCount code = 1 + count_occ N.eq_dec code LF
  /\ 1 <= lineCount code <= 1 + charCount code
  /\ length (nonEmptyLines code) <= lineCount code.
Proof.
  unfold lineCount, charCount. rewrite split_LF_length.
  split; [reflexivity|]. split.
  - pose proof (count_occ_bound N.eq_dec LF code) as H.
    change (count_occ N.eq_dec code LF <= @length char code) in H. lia.
  - unfold nonEmptyLines.
    eapply Nat.le_trans; [apply filter_length_le|].
    rewrite split_LF_length. apply le_n_S, count_LF_trim.
Qed.

(** A line survives [filter(l => l.trim())] when it holds a character that
    is no white space. *)
Lemma truthy_trim (l : jsstring) : truthy (trim l) = negb (forallb isSpace l).
Proof.
  destruct (forallb isSpace l) eqn:E.
  - now rewrite (trim_spaces _ E).
  - destruct (trim l) as [|c t] eqn:Et; [|reflexivity]. exfalso.
    unfold trim, trimEnd, trimStart in Et.
    apply (f_equal (@rev char)) in Et. rewrite rev_involutive in Et. cbn in Et.
    apply dropWhile_nil_iff in Et. rewrite forallb_rev in Et.
    pose proof (dropWhile_head isSpace l) as Hd.
    destruct (dropWhile isSpace l) as [|h d] eqn:Ed.
    + apply dropWhile_nil_iff in Ed. congruence.
    + cbn in Et. rewrite Hd in Et. discriminate.
Qed.

Lemma split_no_LF (s : jsstring) : ~ In LF s -> split_LF s = [s].
Proof.
  induction s as [|c s IH]; intros H; [reflexivity|].
  cbn [split_LF]. destruct (N.eqb_spec c LF) as [->|Hne].
  - exfalso. apply H. now left.
  - rewrite IH; [reflexivity|]. intros Hin. apply H. now right.
Qed.

Lemma split_LF_app (a b : jsstring) :
  split_LF (a ++ LF :: b) = split_LF a ++ split_LF b.
Proof.
  induction a as [|c a IH]; [reflexivity|].
  cbn [app split_LF]. destruct (N.eqb c LF).
  - now rewrite IH.
  - rewrite IH. destruct (split_LF_cons a) as [l [ls E]]. now rewrite E.
Qed.

Lemma nonblank_piece (s : jsstring) :
  forallb isSpace s = false ->
  1 <= length (filter (fun l => truthy (trim l)) (split_LF s)).
Proof.
  induction s as [|c s IH]; [discriminate|].
  cbn [forallb split_LF]. intros H.
  destruct (N.eqb_spec c LF) as [->|Hne].
  - cbn in H. cbn [filter]. rewrite truthy_trim. cbn. now apply IH.
  - destruct (split_LF_cons s) as [l [ls E]]. rewrite E in *.
    cbn [filter] in *. rewrite !truthy_trim in *. cbn [forallb].
    destruct (isSpace c); cbn in *; [|lia].
    specialize (IH H). destruct (forallb isSpace l); cbn in *; lia.
Qed.

Lemma lastChar_app_cons (x : jsstring) (c : char) (b : jsstring) :
  lastChar (x ++ c :: b) = lastChar (c :: b).
Proof.
  induction x as [|d x IH]; [reflexivity|].
  cbn [app]. change (lastChar (d :: x ++ c :: b)) with
    (match x ++ c :: b with [] => Some d | _ :: _ => lastChar (x ++ c :: b) end).
  destruct (x ++ c :: b) eqn:E; [destruct x; discriminate|]. exact IH.
Qed.

(** A trimmed text with a line feed has two non-empty lines or more. *)
Lemma line_feed_two_lines (code : jsstring) :
  In LF (trim code) -> 2 <= length (nonEmptyLines code).
Proof.
  unfold nonEmptyLines. intros Hin.
  pose proof (trim_head code) as Hh. pose proof (trim_last code) as Hl.
  destruct (in_split _ _ Hin) as [a [b E]]. rewrite E in *.
  rewrite split_LF_app, filter_app, length_app.
  assert (Ha : forallb isSpace a = false).
  { destruct a as [|h a]; cbn in Hh; [discriminate|].
    cbn. now rewrite Hh. }
  assert (Hb : forallb isSpace b = false).
  { rewrite lastChar_app_cons in Hl.
    destruct b as [|h b]; [cbn in Hl; discriminate|].
    change (lastChar (LF :: h :: b)) with (lastChar (h :: b)) in Hl.
    destruct (forallb isSpace (h :: b)) eqn:Eb; [|reflexivity].
    apply forallb_lastChar in Eb.
    destruct (lastChar_cons h b) as [e He]. rewrite He in *. congruence. }
  pose proof (nonblank_piece a Ha). pose proof (nonblank_piece b Hb). lia.
Qed.

Lemma no_line_feed_one_line (code : jsstring) :
  ~ In LF (trim code) -> nonEmptyLines code = filter (fun l => truthy (trim l)) [trim code].
Proof. intros H. unfold nonEmptyLines. now rewrite (split_no_LF _ H). Qed.

(** X5: which rule applies.  The short-input rule is taken exactly when
    the trimmed text holds no line feed; a trimmed text with a line feed
    always has at least two non-empty lines and goes through the loop. *)
Theorem short_input_iff_one_line (code : jsstring) :
  length (nonEmptyLines code) < 2 <-> ~ In LF (trim code).
Proof.
  split.
  - intros Hlen Hin. pose proof (line_feed_two_lines code Hin). lia.
  - intros H. rewrite (no_line_feed_one_line code H). cbn [filter].
    destruct (truthy (trim (trim code))); cbn; lia.
Qed.

(* ================================================================== *)
(** ** Lines that end like code *)
(* ================================================================== *)

Lemma class_spaces_end_here (cl : cclass) (p : option char) (s : jsstring) :
  isSome (m no_flags (Cls cl ;; s_star ;; Eol) kend p s) =
  match s with
  | c :: rest => in_class no_flags cl c && forallb isSpace rest
  | [] => false
  end.
Proof.
  destruct s as [|c s]; auto.
  cbn [m s_star]. destruct (in_class no_flags cl c); auto. apply spaces_to_end.
Qed.

Lemma class_spaces_end_search (cl : cclass) (s : jsstring) (p : option char) :
  match lastChar s with Some c => isSpace c = false | None => True end ->
  isSome (search no_flags (Cls cl ;; s_star ;; Eol) p s) =
  match lastChar s with Some c => in_class no_flags cl c | None => false end.
Proof.
  revert p. induction s as [|c s IH]; intros p Hlast.
  - reflexivity.
  - cbn [search].
    pose proof (class_spaces_end_here cl p (c :: s)) as Hm.
    destruct s as [|d s].
    + cbn [forallb lastChar] in *. rewrite andb_true_r in Hm.
      destruct (m no_flags (Cls cl ;; s_star ;; Eol) kend p [c]);
        cbn in Hm; rewrite <- Hm; reflexivity.
    + assert (Hsp : forallb isSpace (d :: s) = false).
      { destruct (forallb isSpace (d :: s)) eqn:E; auto.
        apply forallb_lastChar in E.
        change (lastChar (c :: d :: s)) with (lastChar (d :: s)) in Hlast.
        destruct (lastChar_cons d s) as [e He]. rewrite He in *. congruence. }
      rewrite Hsp, andb_false_r in Hm.
      destruct (m no_flags (Cls cl ;; s_star ;; Eol) kend p (c :: d :: s)); [discriminate|].
      rewrite IH; auto.
Qed.

Lemma in_class_terminators (c : char) :
  in_class no_flags (OneOf [chr "{"; chr "}"; chr ";"; chr ":"]) c = isCodeTerminator c.
Proof.
  unfold isCodeTerminator, isSymbol. cbn [in_class existsb item_matches chr].
  rewrite !canon_no_flags, orb_false_r.
  rewrite (N.eqb_sym (N_of_ascii "{")), (N.eqb_sym (N_of_ascii "}")),
    (N.eqb_sym (N_of_ascii ";")), (N.eqb_sym (N_of_ascii ":")).
  now rewrite !orb_assoc.
Qed.

(** /[{};:]\s*$/ on a trimmed line looks at its last character. *)
Lemma code_term_spec (line : jsstring) :
  test no_flags re_code_term (trim line) =
  match lastChar (trim line) with Some c => isCodeTerminator c | None => false end.
Proof.
  unfold test, re_code_term, set. rewrite class_spaces_end_search.
  - destruct (lastChar (trim line)); auto. apply in_class_terminators.
  - pose proof (trim_last line) as H. destruct (lastChar (trim line)); auto.
Qed.

Lemma terminated_isCode (line : jsstring) :
  terminated line -> isCode (trim line) = true.
Proof.
  intros [c [Hl Hc]]. unfold isCode. rewrite code_term_spec, Hl, Hc.
  now rewrite !orb_true_r.
Qed.

Lemma countLines_in (l : jsstring) (lines : list jsstring) :
  In l lines -> countLine (0, 0) l = (0, 1) -> 1 <= snd (countLines lines).
Proof.
  intros Hin Hl. destruct (in_split _ _ Hin) as [l1 [l2 ->]].
  rewrite (countLines_app l1 (l :: l2)). cbn [snd].
  pose proof (countLines_app [l] l2) as E2. cbn [app] in E2. rewrite E2.
  assert (E1 : countLines [l] = (0, 1)) by exact Hl.
  rewrite E1. cbn [snd]. lia.
Qed.

(** A line whose trimmed form ends with [{], [}], [;] or [:] carries a code
    signal and never adds to the prose counter. *)
Lemma terminated_line (line : jsstring) (p c : nat) :
  terminated line ->
  isCode (trim line) = true /\ fst (countLine (p, c) line) = p.
Proof.
  intros Ht. pose proof (terminated_isCode Ht) as Hc. split; auto.
  unfold countLine. rewrite Hc. cbn [negb]. rewrite andb_false_r.
  destruct (true && negb (isProse (trim line))); reflexivity.
Qed.

Lemma terminated_no_prose_line (lines : list jsstring) :
  Forall terminated lines -> fst (countLines lines) = 0.
Proof.
  induction 1 as [|l lines Hl _ IH]; [reflexivity|].
  pose proof (countLines_app [l] lines) as E. cbn [app] in E.
  rewrite E. cbn [fst]. rewrite IH.
  unfold countLines. cbn [fold_left]. destruct (terminated_line 0 0 Hl) as [_ ->].
  reflexivity.
Qed.

(** X6: lines that end like code.  When every non-empty line of a text of
    at least two such lines ends, once trimmed, with [{], [}], [;] or [:],
    no line counts as prose; and as soon as one of the lines carries no
    prose signal the scorer answers [false]. *)
Theorem terminated_lines_not_prose (code : jsstring) :
  2 <= length (nonEmptyLines code) ->
  Forall terminated (nonEmptyLines code) ->
  fst (countLines (nonEmptyLines code)) = 0
  /\ ((exists line, In line (nonEmptyLines code) /\ isProse (trim line) = false) ->
      isPlainText code = false).
Proof.
  intros Hlen Hall.
  pose proof (terminated_no_prose_line Hall) as H0. split; [exact H0|].
  intros [line [Hin Hnp]].
  destruct (countLines (nonEmptyLines code)) as [p c] eqn:E. cbn [fst] in H0.
  assert (Hc : 1 <= c).
  { pose proof (@countLines_in line (nonEmptyLines code) Hin) as H.
    rewrite E in H. apply H.
    rewrite Forall_forall in Hall. pose proof (terminated_isCode (Hall _ Hin)) as Hcode.
    unfold countLine. now rewrite Hcode, Hnp. }
  subst p. rewrite (isPlainText_multiline code Hlen E).
  assert (Hlt : Nat.ltb 0 (0 + c) = true) by (apply Nat.ltb_lt; lia).
  rewrite Hlt, ratio_gt_spec by lia. apply Nat.ltb_ge. lia.
Qed.

Lemma terminated_lines_not_prose_witness :
  isPlainText two_statements = false.
Proof.
  assert (Hlen : 2 <= length (nonEmptyLines two_statements)) by (vm_compute; lia).
  assert (Hall : Forall terminated (nonEmptyLines two_statements)).
  { change (nonEmptyLines two_statements) with [u "total += price;"; u "count++;"].
    repeat constructor; exists (N_of_ascii ";"); split; reflexivity. }
  destruct (terminated_lines_not_prose two_statements Hlen Hall) as [_ H].
  apply H. exists (u "count++;"). split; [right; left; reflexivity|reflexivity].
Defined.

(* ================================================================== *)
(** ** Tokens that settle a pattern *)
(* ================================================================== *)

Lemma test_later (fl : flags) (r : regex) (a s : jsstring) :
  (forall p, isSome (m fl r kend p s) = true) -> test fl r (a ++ s) = true.
Proof. intros H. unfold test. now apply search_later. Qed.

Lemma firstMatch_upto (rules : list PatternRule) (code : jsstring) (i : nat)
    (rule : PatternRule) :
  nth_error rules i = Some rule -> testRule code rule = true ->
  exists j r, j <= i /\ nth_error rules j = Some r /\ testRule code r = true
              /\ firstMatch rules code = lang r.
Proof.
  revert i. induction rules as [|q rules IH]; intros i Hn Ht.
  - destruct i; discriminate.
  - cbn [firstMatch]. destruct (testRule code q) eqn:Eq.
    + exists 0, q. repeat split; auto. lia.
    + destruct i as [|i]; cbn in Hn.
      * inversion Hn; subst. congruence.
      * destruct (IH i Hn Ht) as [j [r [Hj [Hr [Htr Hf]]]]].
        exists (S j), r. repeat split; auto. lia.
Qed.

(** Finds the alternative of a pattern that matches a text with a known
    beginning. *)
Ltac find_alt :=
  first [ solve [vm_compute; reflexivity]
        | solve [simpl; apply star_kend]
        | apply alt_left; find_alt
        | apply alt_right; find_alt ].

Ltac settle_trigger :=
  eexists; split; [reflexivity|];
  unfold testRule; cbn [pattern fst snd];
  apply test_later; intros ?;
  unfold re_java, re_cpp, re_c, re_typescript, re_go, re_rust, re_python,
    re_javascript, re_ruby, re_php;
  find_alt.

Lemma literal_trigger_matches (i : nat) (tok code : jsstring) :
  In (i, tok) literalTriggers -> contains tok code ->
  exists rule, nth_error LANGUAGE_PATTERNS i = Some rule /\ testRule code rule = true.
Proof.
  intros Hin [a [b ->]]. unfold literalTriggers in Hin.
  repeat (destruct Hin as [Hin|Hin];
          [inversion Hin; subst i tok; clear Hin; settle_trigger|]).
  destruct Hin.
Qed.

(** X7: tokens that settle a pattern.  For each token of [literalTriggers],
    a text that holds it anywhere matches the pattern of the token's rule;
    so, unless the scorer calls the text prose, the classifier answers with
    the language of that rule or of a rule before it in the table, never
    with a later one and never with Plain Text. *)
Theorem literal_trigger_precedence (i : nat) (tok code : jsstring) :
  In (i, tok) literalTriggers -> contains tok code ->
  (exists rule, nth_error LANGUAGE_PATTERNS i = Some rule /\ testRule code rule = true)
  /\ (isPlainText code = false ->
      exists j rule, j <= i /\ nth_error LANGUAGE_PATTERNS j = Some rule
                     /\ detectLanguage code = lang rule
                     /\ detectLanguage code <> PlainText).
Proof.
  intros Hin Hc.
  destruct (@literal_trigger_matches i tok code Hin Hc) as [rule [Hn Ht]].
  split; [now exists rule|].
  intros Hnp. unfold detectLanguage, detectLanguageWith. rewrite Hnp.
  destruct (@firstMatch_upto LANGUAGE_PATTERNS code i rule Hn Ht) as [j [r [Hj [Hr [_ Hf]]]]].
  exists j, r. repeat split; auto.
  rewrite Hf. apply registry_langs_not_plain. eapply nth_error_In; eauto.
Qed.

Lemma literal_trigger_precedence_witness :
  detectLanguage (u "x = malloc(8);") = C.
Proof.
  assert (Hin : In (2, u "malloc(") literalTriggers).
  { unfold literalTriggers. do 17 right. left. reflexivity. }
  assert (Hc : contains (u "malloc(") (u "x = malloc(8);")).
  { exists (u "x = "), (u "8);"). reflexivity. }
  destruct (@literal_trigger_precedence 2 (u "malloc(") (u "x = malloc(8);") Hin Hc) as [_ H].
  destruct H as [j [rule [Hj [Hn [Hd _]]]]]; [vm_compute; reflexivity|].
  vm_compute. reflexivity.
Defined.

(* ================================================================== *)
(** ** The driver label *)
(* ================================================================== *)

Lemma stripPrefix_app (sep x y r : jsstring) :
  stripPrefix sep x = Some r -> stripPrefix sep (x ++ y) = Some (r ++ y).
Proof.
  revert x. induction sep as [|a sep IH]; intros x H.
  - cbn in *. now inversion H.
  - destruct x as [|c x]; [discriminate|]. cbn in *.
    destruct (N.eqb a c); [now apply IH|discriminate].
Qed.

Lemma firstPiece_prefix (sep s : jsstring) :
  exists rest, s = firstPiece sep s ++ rest
               /\ (rest = [] \/ isSome (stripPrefix sep rest) = true).
Proof.
  induction s as [|c s [rest [E H]]].
  - cbn. destruct (stripPrefix sep []) eqn:Es.
    + exists []. auto.
    + exists []. auto.
  - cbn [firstPiece]. destruct (stripPrefix sep (c :: s)) eqn:Es.
    + exists (c :: s). split; [reflexivity|]. right. now rewrite Es.
    + exists rest. split; [|exact H]. cbn. now rewrite <- E.
Qed.

Lemma firstPiece_no_sep (sep s : jsstring) :
  sep <> [] -> includes sep (firstPiece sep s) = false.
Proof.
  intros Hsep. induction s as [|c s IH].
  - cbn. destruct sep; [congruence|]. cbn. reflexivity.
  - cbn [firstPiece]. destruct (stripPrefix sep (c :: s)) eqn:Es.
    + destruct sep; [congruence|]. reflexivity.
    + cbn [includes]. rewrite IH, orb_false_r.
      destruct (stripPrefix sep (c :: firstPiece sep s)) eqn:Ep; [|reflexivity].
      destruct (firstPiece_prefix sep s) as [rest [E _]].
      apply (stripPrefix_app _ _ rest) in Ep. cbn [app] in Ep. rewrite <- E in Ep.
      congruence.
Qed.

(** X8: the driver label.  Whatever the field holds, the label is never
    empty and never holds the separator [", "]; it is ["main"] or the start
    of the field, up to the first separator or to the end of the field. *)
Theorem driverLabel_spec (field : option jsstring) :
  driverLabel field <> []
  /\ includes commaSpace (driverLabel field) = false
  /\ (driverLabel field = mainName
      \/ exists s rest, field = Some s /\ s = driverLabel field ++ rest
                        /\ (rest = [] \/ isSome (stripPrefix commaSpace rest) = true)).
Proof.
  unfold driverLabel. destruct field as [s|].
  - destruct (firstPiece commaSpace s) as [|c piece] eqn:E; cbn [truthy].
    + split; [discriminate|split; [reflexivity|now left]].
    + split; [discriminate|]. split.
      * rewrite <- E. apply firstPiece_no_sep. discriminate.
      * right. destruct (firstPiece_prefix commaSpace s) as [rest [Es H]].
        exists s, rest. rewrite <- E. auto.
  - split; [discriminate|split; [reflexivity|now left]].
Qed.

Example driverLabel_cases :
  driverLabel None = u "main" /\
  driverLabel (Some []) = u "main" /\
  driverLabel (Some (u ", helper")) = u "main" /\
  driverLabel (Some (u "solve, helper, main")) = u "solve" /\
  driverLabel (Some (u "solve")) = u "solve".
Proof. vm_compute. repeat split; reflexivity. Qed.

(* ================================================================== *)
(** ** The badge follows the text *)
(* ================================================================== *)

(** The eleven descriptors have eleven names. *)
Lemma name_injective (d1 d2 : LanguageInfo) :
  In d1 descriptors -> In d2 descriptors -> name d1 = name d2 -> d1 = d2.
Proof.
  unfold descriptors. cbn [In]. intros H1 H2 E.
  repeat (destruct H1 as [<-|H1]);
    try (exfalso; exact H1);
    repeat (destruct H2 as [<-|H2]);
    try (exfalso; exact H2);
    first [reflexivity | discriminate E].
Qed.

Lemma autoDetect_consistent (st : EditorState) :
  In (detectedLanguage st) descriptors ->
  detectedLanguage (autoDetect st) = detectLanguage (code (autoDetect st)).
Proof.
  intros Hin. unfold autoDetect.
  destruct (String.eqb_spec (name (detectLanguage (code st))) (name (detectedLanguage st)))
    as [E|E]; cbn [negb]; [|reflexivity].
  symmetry. apply name_injective; auto. apply detectLanguage_in_descriptors.
Qed.

Lemma run_snoc (events : list Event) (e : Event) :
  run (events ++ [e]) = step (run events) e.
Proof. unfold run. now rewrite fold_left_app. Qed.

(** X9: the badge follows the text.  After any sequence of edits and file
    loads, once the detection effect has run, the badge holds exactly the
    descriptor of the current text, so the editor mode is the mode of the
    detected language, although the effect compares names only; and running
    the effect once more changes nothing. *)
Theorem badge_follows_text (events : list Event) :
  detectedLanguage (run events) = detectLanguage (code (run events))
  /\ editorMode (run events) = monacoId (detectLanguage (code (run events)))
  /\ autoDetect (run events) = run events.
Proof.
  assert (H : detectedLanguage (run events) = detectLanguage (code (run events))).
  { induction events as [|e events IH] using rev_ind.
    - apply autoDetect_consistent. apply detectLanguage_in_descriptors.
    - rewrite run_snoc. unfold step. apply autoDetect_consistent.
      replace (detectedLanguage (handleEvent e (run events)))
        with (detectedLanguage (run events)) by (destruct e; reflexivity).
      rewrite IH. apply detectLanguage_in_descriptors. }
  split; [exact H|]. split; [unfold editorMode; now rewrite H|].
  unfold autoDetect. rewrite <- H, String.eqb_refl. reflexivity.
Qed.

Example badge_after_typing :
  let st := run [EditorChange (Some cpp_line); EditorChange None;
                 FileLoaded java_line] in
  code st = java_line /\ detectedLanguage st = Java /\ editorMode st = "java"
  /\ isDirty st = true.
Proof. vm_compute. repeat split; reflexivity. Qed.

(* ================================================================== *)
(** ** The search filter of the history page *)
(* ================================================================== *)

Lemma includes_empty (s : jsstring) : includes [] s = true.
Proof. destruct s; reflexivity. Qed.

(** X10: the search filter.  The filter throws a TypeError exactly when
    some stored result has no [fileName], whatever the search term; and when
    every result has one, the empty search term keeps the whole history, in
    its order. *)
Theorem filteredHistory_spec (Item : Type) (fileNameOf : Item -> option jsstring)
    (languageOf : Item -> jsstring) (toLowerCase : jsstring -> jsstring)
    (searchTerm : jsstring) (history : list Item) :
  (filteredHistory fileNameOf languageOf toLowerCase searchTerm history = ThrowsTypeError
   <-> exists item, In item history /\ fileNameOf item = None)
  /\ (toLowerCase [] = [] ->
      (forall item, In item history -> fileNameOf item <> None) ->
      filteredHistory fileNameOf languageOf toLowerCase [] history = Returned history).
Proof.
  split.
  - induction history as [|item rest IH]; cbn [filteredHistory].
    + split; [discriminate|]. intros [x [[] _]].
    + unfold matchesSearch. destruct (fileNameOf item) as [f|] eqn:Ef.
      * destruct (filteredHistory fileNameOf languageOf toLowerCase searchTerm rest).
        -- split; [discriminate|]. intros [x [[<-|Hin] Hx]]; [congruence|].
           destruct IH as [_ IH]. assert (E : @Returned (list Item) a = ThrowsTypeError)
             by (apply IH; now exists x). discriminate E.
        -- split; [|reflexivity]. intros _. destruct IH as [IH _].
           destruct (IH eq_refl) as [x [Hin Hx]]. exists x. split; [now right|exact Hx].
      * split; [|reflexivity]. intros _. exists item. split; [now left|exact Ef].
  - intros Hlow Hall. induction history as [|item rest IH]; [reflexivity|].
    cbn [filteredHistory]. unfold matchesSearch.
    destruct (fileNameOf item) as [f|] eqn:Ef.
    + rewrite Hlow, includes_empty. cbn [orb].
      rewrite IH; [reflexivity|]. intros x Hx. apply Hall. now right.
    + exfalso. apply (Hall item); [now left|exact Ef].
Qed.

Example filteredHistory_cases :
  let history := [(Some (u "Main.java"), u "Java"); (Some (u "notes.txt"), u "Plain Text")] in
  let filtered := filteredHistory fst snd asciiLowerCase in
  filtered (u "JAVA") history = Returned [(Some (u "Main.java"), u "Java")]
  /\ filtered [] history = Returned history
  /\ filtered (u "java") (history ++ [(None, u "Java")]) = ThrowsTypeError.
Proof. vm_compute. repeat split; reflexivity. Qed.

(* ================================================================== *)
(** ** The session token *)
(* ================================================================== *)

Lemma sameKey_spec (k k' : jsstring) : reflect (k = k') (sameKey k k').
Proof.
  unfold sameKey. destruct (list_eq_dec N.eq_dec k k'); now constructor.
Qed.

Lemma sameKey_refl (k : jsstring) : sameKey k k = true.
Proof. destruct (sameKey_spec k k); congruence. Qed.

Lemma getItem_removeItem (k k' : jsstring) (s : Storage) :
  getItem k' (removeItem k s) = if sameKey k k' then None else getItem k' s.
Proof.
  unfold removeItem. induction s as [|[k0 v] s IH]; cbn [filter getItem fst].
  - now destruct (sameKey k k').
  - destruct (sameKey_spec k k0) as [E0|E0]; cbn [negb getItem].
    + subst k0. rewrite IH.
      destruct (sameKey_spec k k') as [E|E]; [reflexivity|].
      destruct (sameKey_spec k' k); [congruence|reflexivity].
    + rewrite IH.
      destruct (sameKey_spec k' k0) as [E1|E1]; [|reflexivity].
      subst k0. destruct (sameKey_spec k k'); [congruence|reflexivity].
Qed.

Lemma getItem_setItem (k k' v : jsstring) (s : Storage) :
  getItem k' (setItem k v s) = if sameKey k k' then Some v else getItem k' s.
Proof.
  unfold setItem. cbn [getItem]. rewrite getItem_removeItem.
  destruct (sameKey_spec k' k); destruct (sameKey_spec k k'); congruence.
Qed.

(** X11: the session token.  After a logout the protected routes send to
    the login page, whatever the storage held.  After a login answered
    without error and with a session, they show the page exactly when the
    access token is not empty.  A login answered with an error leaves the
    storage as it was, also when the answer carries a session.  None of
    this reads or writes another key of the storage. *)
Theorem session_token_flow (s : Storage) (r : AuthResponse) :
  ProtectedRoute (fst (handleLogout s)) = NavigateTo loginPath
  /\ (forall token, errorMessage r = None -> sessionToken r = Some token ->
        ProtectedRoute (fst (handleLogin r s))
        = if truthy token then Outlet else NavigateTo loginPath)
  /\ (errorMessage r <> None -> fst (handleLogin r s) = s)
  /\ (forall k, k <> auth_token ->
        getItem k (fst (handleLogout s)) = getItem k s
        /\ getItem k (fst (handleLogin r s)) = getItem k s).
Proof.
  split; [|split; [|split]].
  - unfold ProtectedRoute, handleLogout. cbn [fst].
    now rewrite getItem_removeItem, sameKey_refl.
  - intros token He Hs. unfold ProtectedRoute, handleLogin. rewrite He, Hs. cbn [fst].
    now rewrite getItem_setItem, sameKey_refl.
  - intros He. unfold handleLogin. destruct (errorMessage r); [reflexivity|congruence].
  - intros k Hk.
    assert (Hne : sameKey auth_token k = false).
    { destruct (sameKey_spec auth_token k); congruence. }
    split.
    + unfold handleLogout. cbn [fst]. now rewrite getItem_removeItem, Hne.
    + unfold handleLogin. destruct (errorMessage r); [reflexivity|].
      destruct (sessionToken r); [|reflexivity].
      cbn [fst]. now rewrite getItem_setItem, Hne.
Qed.

Example login_then_logout :
  let s1 := fst (handleLogin {| errorMessage := None; sessionToken := Some (u "abc") |} []) in
  let s2 := fst (handleLogin {| errorMessage := None; sessionToken := Some [] |} []) in
  ProtectedRoute [] = NavigateTo loginPath
  /\ ProtectedRoute s1 = Outlet
  /\ ProtectedRoute s2 = NavigateTo loginPath
  /\ ProtectedRoute (fst (handleLogout s1)) = NavigateTo loginPath.
Proof. vm_compute. repeat split; reflexivity. Qed.

(* ================================================================== *)
(** ** What the prose scorer reads of a text *)
(* ================================================================== *)

Lemma trimmedLines_app (a b : jsstring) :
  trimmedLines (a ++ LF :: b) = trimmedLines a ++ trimmedLines b.
Proof. unfold trimmedLines. now rewrite split_LF_app, filter_app, map_app. Qed.

Lemma isSpace_LF : isSpace LF = true.
Proof. reflexivity. Qed.

Lemma trim_cons_space (c : char) (l : jsstring) :
  isSpace c = true -> trim (c :: l) = trim l.
Proof.
  intros Hc. pose proof (trim_padding [c] l []) as H.
  rewrite app_nil_r in H. apply H; cbn; now rewrite ?Hc.
Qed.

Lemma trim_snoc_space (c : char) (l : jsstring) :
  isSpace c = true -> trim (l ++ [c]) = trim l.
Proof.
  intros Hc. apply (trim_padding [] l [c]); cbn; now rewrite ?Hc.
Qed.

(** A white-space character at the start of a text changes no trimmed
    line. *)
Lemma trimmedLines_cons_space (c : char) (s : jsstring) :
  isSpace c = true -> trimmedLines (c :: s) = trimmedLines s.
Proof.
  intros Hc. unfold trimmedLines. cbn [split_LF].
  destruct (N.eqb c LF).
  - reflexivity.
  - destruct (split_LF_cons s) as [l [ls E]]. rewrite E.
    cbn [filter]. rewrite (trim_cons_space c l Hc).
    destruct (truthy (trim l)); cbn [map]; now rewrite ?(trim_cons_space c l Hc).
Qed.

Lemma trimmedLines_spaces_app (w s : jsstring) :
  forallb isSpace w = true -> trimmedLines (w ++ s) = trimmedLines s.
Proof.
  induction w as [|c w IH]; intros H; [reflexivity|].
  cbn in H. apply andb_true_iff in H. destruct H as [Hc Hw].
  cbn [app]. rewrite (trimmedLines_cons_space c (w ++ s) Hc). now apply IH.
Qed.

(** And so does one at its end. *)
Lemma trimmedLines_snoc_space (c : char) (x p : jsstring) :
  isSpace c = true -> ~ In LF p ->
  trimmedLines (p ++ x ++ [c]) = trimmedLines (p ++ x).
Proof.
  intros Hc. revert p. induction x as [|d x IH]; intros p Hp.
  - rewrite app_nil_r. cbn [app].
    destruct (N.eqb_spec c LF) as [->|Hne].
    + rewrite trimmedLines_app. unfold trimmedLines at 2. cbn. apply app_nil_r.
    + unfold trimmedLines. rewrite !split_no_LF; auto.
      * cbn [filter]. rewrite (trim_snoc_space c p Hc).
        destruct (truthy (trim p)); cbn [map]; now rewrite ?(trim_snoc_space c p Hc).
      * intros Hin. apply in_app_or in Hin. destruct Hin as [Hin|[->|[]]]; auto.
  - destruct (N.eqb_spec d LF) as [->|Hne].
    + cbn [app]. rewrite !trimmedLines_app. f_equal. apply (IH []). intros [].
    + replace (p ++ (d :: x) ++ [c]) with ((p ++ [d]) ++ x ++ [c])
        by (now rewrite <- !app_assoc).
      replace (p ++ d :: x) with ((p ++ [d]) ++ x) by (now rewrite <- app_assoc).
      apply IH. intros Hin. apply in_app_or in Hin.
      destruct Hin as [Hin|[->|[]]]; auto.
Qed.

Lemma trimmedLines_app_spaces (s w : jsstring) :
  forallb isSpace w = true -> trimmedLines (s ++ w) = trimmedLines s.
Proof.
  induction w as [|c w IH] using rev_ind; intros H; [now rewrite app_nil_r|].
  rewrite forallb_app in H. apply andb_true_iff in H. destruct H as [Hw Hc].
  cbn in Hc. rewrite andb_true_r in Hc.
  rewrite app_assoc.
  pose proof (@trimmedLines_snoc_space c (s ++ w) [] Hc) as E. cbn [app] in E.
  rewrite E; [now apply IH|]. intros [].
Qed.

Lemma dropWhile_split (p : char -> bool) (s : jsstring) :
  exists w, s = w ++ dropWhile p s /\ forallb p w = true.
Proof.
  induction s as [|c s [w [E H]]]; cbn.
  - now exists [].
  - destruct (p c) eqn:Ec.
    + exists (c :: w). cbn. rewrite Ec, H. split; [now rewrite <- E|reflexivity].
    + now exists [].
Qed.

(** Trimming the whole text first, as the program does, changes no
    trimmed line. *)
Lemma trimmedLines_trim (code : jsstring) :
  trimmedLines (trim code) = trimmedLines code.
Proof.
  unfold trim, trimEnd, trimStart.
  destruct (dropWhile_split isSpace code) as [w1 [E1 H1]].
  remember (dropWhile isSpace code) as d eqn:Ed. clear Ed.
  destruct (dropWhile_split isSpace (rev d)) as [w2 [E2 H2]].
  remember (dropWhile isSpace (rev d)) as t eqn:Et. clear Et.
  apply (f_equal (@rev char)) in E2. rewrite rev_involutive, rev_app_distr in E2.
  subst code d.
  rewrite (trimmedLines_spaces_app w1 _ H1).
  rewrite trimmedLines_app_spaces; [reflexivity|]. now rewrite forallb_rev.
Qed.

Lemma nonEmptyLines_trimmed (code : jsstring) :
  map trim (nonEmptyLines code) = trimmedLines code.
Proof. rewrite <- trimmedLines_trim. reflexivity. Qed.

Lemma fold_countTrimmed (lines : list jsstring) (acc : nat * nat) :
  fold_left countLine lines acc = fold_left countTrimmed (map trim lines) acc.
Proof.
  revert acc. induction lines as [|l lines IH]; intros acc; [reflexivity|].
  cbn [fold_left map]. rewrite <- IH. reflexivity.
Qed.

Lemma short_text (code : jsstring) :
  length (nonEmptyLines code) < 2 -> trim code = hd [] (trimmedLines code).
Proof.
  intros H. rewrite <- nonEmptyLines_trimmed.
  assert (Hn : ~ In LF (trim code)).
  { intros Hin. pose proof (line_feed_two_lines code Hin). lia. }
  rewrite (no_line_feed_one_line code Hn). cbn [filter].
  rewrite trim_idempotent.
  destruct (trim code) as [|c t] eqn:E; cbn [truthy map hd]; [reflexivity|].
  rewrite <- E. apply eq_sym, trim_idempotent.
Qed.

Lemma isPlainText_verdictOf (code : jsstring) :
  isPlainText code = verdictOf (trimmedLines code) (symbolCount code).
Proof.
  unfold isPlainText, verdictOf.
  rewrite <- nonEmptyLines_trimmed, length_map.
  destruct (Nat.ltb (length (nonEmptyLines code)) 2) eqn:E.
  - apply Nat.ltb_lt in E. rewrite nonEmptyLines_trimmed, <- (short_text code E).
    reflexivity.
  - unfold countLines. rewrite fold_countTrimmed, symbols_comparison. reflexivity.
Qed.

(** X12: what the scorer reads of a text.  The verdict is a function of the
    trimmed non-blank lines and of the number of structural symbols.  So
    white space put in or taken out beside a line feed (blank lines,
    indentation, blanks at the end of a line) never changes it. *)
Theorem isPlainText_layout (a b w : jsstring) :
  forallb isSpace w = true ->
  isPlainText (a ++ LF :: w ++ b) = isPlainText (a ++ LF :: b)
  /\ isPlainText (a ++ w ++ LF :: b) = isPlainText (a ++ LF :: b)
  /\ forall c1 c2,
       trimmedLines c1 = trimmedLines c2 -> symbolCount c1 = symbolCount c2 ->
       isPlainText c1 = isPlainText c2.
Proof.
  intros Hw.
  assert (Hext : forall c1 c2,
             trimmedLines c1 = trimmedLines c2 -> symbolCount c1 = symbolCount c2 ->
             isPlainText c1 = isPlainText c2).
  { intros c1 c2 Hl Hs. now rewrite !isPlainText_verdictOf, Hl, Hs. }
  split; [|split; [|exact Hext]]; apply Hext.
  - rewrite !trimmedLines_app. f_equal. now apply trimmedLines_spaces_app.
  - change (LF :: w ++ b) with ([LF] ++ w ++ b). change (LF :: b) with ([LF] ++ b).
    rewrite !symbolCount_app, (symbolCount_spaces _ Hw). lia.
  - rewrite app_assoc, !trimmedLines_app. f_equal. now apply trimmedLines_app_spaces.
  - change (LF :: b) with ([LF] ++ b).
    rewrite !symbolCount_app, (symbolCount_spaces _ Hw). lia.
Qed.

Lemma isPlainText_layout_witness :
  isPlainText (u "Hello there." ++ nl ++ u "    " ++ nl ++ u "  x = 1;")
  = isPlainText (u "Hello there." ++ nl ++ u "x = 1;").
Proof.
  destruct (@isPlainText_layout (u "Hello there.") (u "x = 1;") (u "    " ++ nl ++ u "  "))
    as [H _]; [reflexivity|].
  exact H.
Defined.

(* ================================================================== *)
(** ** A colon at the end of a line *)
(* ================================================================== *)

Lemma colon_before_line_feed (p : option char) (b : jsstring) :
  isSome (m flag_m (L ":" ;; s_star ;; Eol) kend p (N_of_ascii ":" :: LF :: b)) = true.
Proof.
  change (isSome (star flag_m cs (m flag_m Eol kend) (Some (N_of_ascii ":")) (LF :: b))
          = true).
  cbn [star]. rewrite in_class_cs, isSpace_LF, isSome_orElse.
  apply orb_true_r.
Qed.

(** X13: a colon at the end of a line.  A text in which a colon stands
    right before a line feed, or at the very end, matches the Python
    pattern; unless the scorer calls it prose, it is answered with Python or
    with a language before Python in the table, never with Plain Text. *)
Theorem colon_line_end (code : jsstring) :
  contains (u ":" ++ nl) code \/ (exists a, code = a ++ u ":") ->
  test flag_m re_python code = true
  /\ (isPlainText code = false ->
      In (detectLanguage code) [Java; Cpp; C; TypeScript; Go; Rust; Python]).
Proof.
  intros H.
  assert (Ht : test flag_m re_python code = true).
  { destruct H as [[a [b ->]]|[a ->]]; apply test_later; intros p; unfold re_python.
    - do 7 apply alt_right. apply colon_before_line_feed.
    - do 7 apply alt_right. vm_compute. reflexivity. }
  split; [exact Ht|]. intros Hnp.
  unfold detectLanguage, detectLanguageWith. rewrite Hnp.
  destruct (@firstMatch_upto LANGUAGE_PATTERNS code 6
              {| pattern := (flag_m, re_python); lang := Python |} eq_refl Ht)
    as [j [r [Hj [Hr [_ ->]]]]].
  do 7 (destruct j as [|j];
        [cbn in Hr; inversion Hr; subst r; cbn; tauto|]).
  lia.
Qed.

Lemma colon_line_end_witness :
  In (detectLanguage (u "Ingredients:" ++ nl ++ u "1 egg;"))
     [Java; Cpp; C; TypeScript; Go; Rust; Python].
Proof.
  destruct (@colon_line_end (u "Ingredients:" ++ nl ++ u "1 egg;")) as [_ H].
  - left. exists (u "Ingredients"), (u "1 egg;"). reflexivity.
  - apply H. vm_compute. reflexivity.
Defined.
